(** * webspider: a shallow embedding of [webspider.py]

    The module scrapes one page with CSS-selector rules, reads the
    [keywords] meta tag, parses [robots.txt], fingerprints two response
    headers, filters records by date and exports them as CSV.

    The embedding keeps the shape of the Python code:
    - a [str] is a sequence of Unicode code points;
    - a [dict] is insertion ordered, as in Python 3.7+;
    - functions that print, raise or write files live in a small monad
      [M] over a [World] (standard output, file system, clock);
    - the network ([requests.get]), the HTML backend (BeautifulSoup) and
      [datetime.strptime] are capabilities passed in explicitly. *)

From Stdlib Require Import List NArith ZArith Lia Bool String Ascii.
Import ListNotations.
Local Open Scope N_scope.

(* ===================================================================== *)
(** * Python [str] *)
(* ===================================================================== *)

Module Str.

(** A Python string: the sequence of its code points. *)
Definition str := list N.

(** A literal: the code points of an ASCII/Latin-1 Rocq string. *)
Definition py (s : string) : str := map N_of_ascii (list_ascii_of_string s).

Fixpoint eqb (a b : str) : bool :=
  match a, b with
  | [], [] => true
  | x :: a', y :: b' => N.eqb x y && eqb a' b'
  | _, _ => false
  end.

(** [c in chars] for a code point. *)
Definition mem (c : N) (chars : str) : bool := existsb (N.eqb c) chars.

(** [str.isspace] on one code point (CPython's [_PyUnicode_IsWhitespace]). *)
Definition is_space (c : N) : bool :=
  ((9 <=? c) && (c <=? 13)) || ((28 <=? c) && (c <=? 32)) ||
  (c =? 133) || (c =? 160) || (c =? 5760) ||
  ((8192 <=? c) && (c <=? 8202)) || (c =? 8232) || (c =? 8233) ||
  (c =? 8239) || (c =? 8287) || (c =? 12288).

(** [s.lstrip()] / [s.rstrip()] / [s.strip()]: whitespace removed. *)
Fixpoint lstrip (s : str) : str :=
  match s with
  | c :: s' => if is_space c then lstrip s' else s
  | [] => []
  end.

Fixpoint rstrip (s : str) : str :=
  match s with
  | [] => []
  | c :: s' =>
      match rstrip s' with
      | [] => if is_space c then [] else [c]
      | r => c :: r
      end
  end.

Definition strip (s : str) : str := rstrip (lstrip s).

(** [s.rstrip(chars)]: every trailing code point that occurs in [chars]
    is removed. *)
Fixpoint rstrip_chars (chars : str) (s : str) : str :=
  match s with
  | [] => []
  | c :: s' =>
      match rstrip_chars chars s' with
      | [] => if mem c chars then [] else [c]
      | r => c :: r
      end
  end.

(** [s.startswith(prefix)]. *)
Fixpoint startswith (prefix s : str) : bool :=
  match prefix, s with
  | [], _ => true
  | p :: prefix', c :: s' => N.eqb p c && startswith prefix' s'
  | _ :: _, [] => false
  end.

(** [s.endswith(suffix)]. *)
Definition endswith (suffix s : str) : bool :=
  startswith (rev suffix) (rev s).

(** [s.partition(sep)] for a one-character separator [sep]: the text
    before the first [sep], the separator found (empty when there is
    none) and the text after it. *)
Fixpoint partition (sep : N) (s : str) : str * str * str :=
  match s with
  | [] => ([], [], [])
  | c :: s' =>
      if N.eqb c sep then ([], [sep], s')
      else let '(before, found, after) := partition sep s' in
           (c :: before, found, after)
  end.

(** [s.split(sep)] for a one-character separator: always at least one
    piece, empty pieces kept. *)
Fixpoint split (sep : N) (s : str) : list str :=
  match s with
  | [] => [[]]
  | c :: s' =>
      if N.eqb c sep then [] :: split sep s'
      else match split sep s' with
           | piece :: pieces => (c :: piece) :: pieces
           | [] => [[c]]
           end
  end.

(** Line boundaries of [str.splitlines]: LF, VT, FF, CR, FS, GS, RS, NEL,
    LINE SEPARATOR, PARAGRAPH SEPARATOR (CR LF counts once). *)
Definition is_linebreak (c : N) : bool :=
  ((10 <=? c) && (c <=? 13)) || ((28 <=? c) && (c <=? 30)) ||
  (c =? 133) || (c =? 8232) || (c =? 8233).

(** [s.splitlines()]; [cur] is the current line, reversed. No empty line
    is produced after a final line break. *)
Fixpoint splitlines_from (cur : str) (s : str) : list str :=
  match s with
  | [] => match cur with [] => [] | _ => [rev cur] end
  | c :: s' =>
      if N.eqb c 13 then
        match s' with
        | 10 :: s'' => rev cur :: splitlines_from [] s''
        | _ => rev cur :: splitlines_from [] s'
        end
      else if is_linebreak c then rev cur :: splitlines_from [] s'
      else splitlines_from (c :: cur) s'
  end.

Definition splitlines (s : str) : list str := splitlines_from [] s.

(** [s.encode("utf-8")] succeeds: no code point is a surrogate
    (U+D800 to U+DFFF), none is beyond U+10FFFF. *)
Definition encodable_char (c : N) : bool :=
  (c <? 55296) || ((57343 <? c) && (c <=? 1114111)).

Definition encodable (s : str) : bool := forallb encodable_char s.

(** [sep.join(pieces)]. *)
Fixpoint join (sep : str) (pieces : list str) : str :=
  match pieces with
  | [] => []
  | [p] => p
  | p :: rest => p ++ sep ++ join sep rest
  end.

End Str.

Abbreviation str := Str.str.
Abbreviation py := Str.py.

(* ===================================================================== *)
(** * Python [dict]: insertion ordered, keyed by [str] *)
(* ===================================================================== *)

Module Dict.
Section Dict.
Context {V : Type}.

  (** Entries in insertion order. A Python dict never holds a key twice:
      [wf]. *)
Definition dict := list (str * V).

Definition keys (d : dict) : list str := map fst d.

Definition wf (d : dict) : Prop := NoDup (keys d).

  (** [d.get(k)]: [None] when the key is absent. *)
Fixpoint get (d : dict) (k : str) : option V :=
    match d with
    | [] => None
    | (k', v) :: d' => if Str.eqb k' k then Some v else get d' k
    end.

  (** [k in d]. *)
Definition contains (d : dict) (k : str) : bool :=
    match get d k with Some _ => true | None => false end.

  (** [d[k] = v]: the value is replaced in place when [k] is present,
      the entry is appended otherwise. *)
Fixpoint setitem (d : dict) (k : str) (v : V) : dict :=
    match d with
    | [] => [(k, v)]
    | (k', v') :: d' =>
        if Str.eqb k' k then (k', v) :: d' else (k', v') :: setitem d' k v
    end.

  (** [d.setdefault(k, default)]: the dict afterwards (the entry is
      created only when [k] is absent). *)
Definition setdefault (d : dict) (k : str) (default : V) : dict :=
    if contains d k then d else d ++ [(k, default)].

  (** In-place mutation of the object stored under [k] (the object is
      shared between the dict and the reference that mutates it). *)
Fixpoint mutate (d : dict) (k : str) (f : V -> V) : dict :=
    match d with
    | [] => []
    | (k', v) :: d' =>
        if Str.eqb k' k then (k', f v) :: d' else (k', v) :: mutate d' k f
    end.
End Dict.
Arguments dict V : clear implicits.
End Dict.

Abbreviation dict := Dict.dict.

(* ===================================================================== *)
(** * Runtime: dates, exceptions, the world, the monad *)
(* ===================================================================== *)

Module Py.

(** [datetime.date]; ordered by (year, month, day). *)
Record date := mkdate { year : Z; month : Z; day : Z }.

Definition date_ltb (a b : date) : bool :=
  ((year a <? year b) ||
   ((year a =? year b) &&
    ((month a <? month b) || ((month a =? month b) && (day a <? day b)))))%Z.

(** [a <= b] on dates. *)
Definition date_leb (a b : date) : bool := negb (date_ltb b a).

(** A scraped record: field name to text, or to [None]. *)
Definition record := dict (option str).

(** The exceptions the program can meet. [HTTPError] is a subclass of
    [requests.exceptions.RequestException]; [UnicodeEncodeError] comes
    from writing to a file opened with [encoding="utf-8"],
    [ParserRejectedMarkup] from the HTML parser, [ReError] ([re.error])
    from [strptime] on a format it cannot compile; all of them are
    [Exception]s. *)
Inductive exn :=
| RequestException (reason : str)
| HTTPError (status : Z)
| SelectorSyntaxError (selector : str)
| ValueError (detail : list str)
| KeyError (key : str)
| TypeError
| OSError (path : str)
| UnicodeEncodeError (text : str)
| ParserRejectedMarkup
| ReError (detail : str).

Definition isinstance_RequestException (e : exn) : bool :=
  match e with
  | RequestException _ | HTTPError _ => true
  | _ => false
  end.

Definition isinstance_ValueError_or_KeyError (e : exn) : bool :=
  match e with
  | ValueError _ | KeyError _ => true
  | _ => false
  end.

(** One [print] call: the format string of the source with the values
    it interpolates. *)
Inductive line :=
| Error_fetching_the_URL (e : exn)
| An_error_occurred (e : exn)
| Error_fetching_the_URL_for_keywords (e : exn)
| robots_txt_not_found_at (robots_url : str)
| Error_fetching_robots_txt (e : exn)
| Error_detecting_technologies (e : exn)
| Warning_Missing_date_for_item (item : record)
| Error_processing_date_for_item (item : record) (e : exn)
| No_data_to_save
| Data_saved_to (filename : str).

(** What the program can observe and change besides its arguments:
    standard output, the files (path to text), which paths can be opened
    for writing, and the current date. *)
Record World := mkWorld {
  stdout : list line;
  files : dict str;
  writable : str -> bool;
  today : date
}.

Inductive Result (A : Type) :=
| Return (a : A)
| Raise (e : exn).
Arguments Return {A} a.
Arguments Raise {A} e.

Definition M (A : Type) : Type := World -> Result A * World.

Definition ret {A} (a : A) : M A := fun w => (Return a, w).

Definition bind {A B} (m : M A) (k : A -> M B) : M B :=
  fun w => match m w with
           | (Return a, w') => k a w'
           | (Raise e, w') => (Raise e, w')
           end.

Definition raise {A} (e : exn) : M A := fun w => (Raise e, w).

(** [try: body / except ...: handler]: [handler e] is [None] when no
    [except] clause matches [e]. *)
Definition try_except {A} (body : M A) (handler : exn -> option (M A)) : M A :=
  fun w => match body w with
           | (Raise e, w') =>
               match handler e with
               | Some h => h w'
               | None => (Raise e, w')
               end
           | r => r
           end.

(** The world after one more line on standard output. *)
Definition printed (w : World) (l : line) : World :=
  {| stdout := stdout w ++ [l]; files := files w;
     writable := writable w; today := today w |}.

Definition print (l : line) : M unit := fun w => (Return tt, printed w l).

(** [datetime.date.today()]. *)
Definition date_today : M date := fun w => (Return (today w), w).

(** [open(filename, "w", ...)]: the file is created or truncated, or
    [OSError] is raised. Text written to the handle is found in the file
    when the [with] block is left, normally or by an exception, so the
    model writes through. *)
Definition opened (w : World) (filename : str) : World :=
  {| stdout := stdout w;
     files := Dict.setitem (files w) filename [];
     writable := writable w; today := today w |}.

Definition open_w (filename : str) : M unit :=
  fun w => if writable w filename
           then (Return tt, opened w filename)
           else (Raise (OSError filename), w).

(** The world after [data] is written to the open file [filename]. *)
Definition wrote (w : World) (filename : str) (data : str) : World :=
  {| stdout := stdout w;
     files := Dict.mutate (files w) filename (fun old => old ++ data);
     writable := writable w; today := today w |}.

(** [csvfile.write(data)]: the text is encoded to UTF-8 first; when it
    cannot be, [UnicodeEncodeError] is raised and nothing of it is
    written. *)
Definition file_write (filename : str) (data : str) : M unit :=
  fun w => if Str.encodable data
           then (Return tt, wrote w filename data)
           else (Raise (UnicodeEncodeError data), w).

End Py.

Declare Scope py_scope.
Delimit Scope py_scope with py.
Notation "x <- m ;; k" := (Py.bind m (fun x => k))
  (at level 61, m at next level, right associativity) : py_scope.
Notation "m ;;; k" := (Py.bind m (fun _ => k))
  (at level 61, right associativity) : py_scope.
Local Open Scope py_scope.

(* ===================================================================== *)
(** * The [requests] and [bs4] capabilities *)
(* ===================================================================== *)

Module Requests.

(** ASCII lower-casing, as used for header names (ASCII tokens). *)
Definition lower (s : str) : str :=
  map (fun c => if (65 <=? c) && (c <=? 90) then c + 32 else c) s.

(** [requests.structures.CaseInsensitiveDict]. *)
Definition CaseInsensitiveDict := list (str * str).

Fixpoint ci_get (h : CaseInsensitiveDict) (k : str) : option str :=
  match h with
  | [] => None
  | (k', v) :: h' => if Str.eqb (lower k') (lower k) then Some v else ci_get h' k
  end.

Record Response := mkResponse {
  status_code : Z;
  headers : CaseInsensitiveDict;
  text : str
}.

(** What one [requests.get] does: a response (of any status), or a
    transport failure, raised as a [RequestException]. *)
Inductive outcome :=
| Fetched (r : Response)
| Failed (reason : str).

Definition Network := str -> outcome.

Definition get (net : Network) (url : str) : Py.M Response :=
  match net url with
  | Fetched r => Py.ret r
  | Failed reason => Py.raise (Py.RequestException reason)
  end.

(** A client (4xx) or server (5xx) error status. *)
Definition is_http_error (status : Z) : bool :=
  ((400 <=? status) && (status <? 600))%Z.

(** [response.raise_for_status()]: [HTTPError] for 4xx and 5xx. *)
Definition raise_for_status (r : Response) : Py.M unit :=
  if is_http_error (status_code r)
  then Py.raise (Py.HTTPError (status_code r))
  else Py.ret tt.

End Requests.

Module Bs4.

Inductive selection (Tag : Type) :=
| Matched (t : Tag)
| NoMatch
| Rejected.
Arguments Matched {Tag} t.
Arguments NoMatch {Tag}.
Arguments Rejected {Tag}.

(** The part of BeautifulSoup the program uses:
    [BeautifulSoup(text, 'html.parser')], [soup.select_one(selector)],
    [soup.find("meta", attrs={"name": n})], [tag.get(attr)] and
    [tag.text]. [select_one] answers [Rejected] for a string that is not
    a CSS selector (soupsieve raises [SelectorSyntaxError]);
    [BeautifulSoup] answers [None] for a text the parser rejects (bs4
    raises [ParserRejectedMarkup]); the other lookups are total; a [Tag]
    is always truthy. *)
Class Backend := {
  Document : Type;
  Tag : Type;
  BeautifulSoup : str -> option Document;
  select_one : Document -> str -> selection Tag;
  find_meta_named : Document -> str -> option Tag;
  tag_get : Tag -> str -> option str;
  tag_text : Tag -> str
}.

Definition BeautifulSoup_M `{Backend} (text : str) : Py.M Document :=
  match BeautifulSoup text with
  | Some soup => Py.ret soup
  | None => Py.raise Py.ParserRejectedMarkup
  end.

Definition select_one_M `{Backend} (soup : Document) (selector : str)
  : Py.M (option Tag) :=
  match select_one soup selector with
  | Matched t => Py.ret (Some t)
  | NoMatch => Py.ret None
  | Rejected => Py.raise (Py.SelectorSyntaxError selector)
  end.

End Bs4.

(* ===================================================================== *)
(** * The [csv] module: [DictWriter] with the default (excel) dialect *)
(* ===================================================================== *)

Module Csv.

(** Delimiter [,], quote character, CR and LF force quoting
    ([QUOTE_MINIMAL]). *)
Definition special (c : N) : bool :=
  (c =? 44) || (c =? 34) || (c =? 13) || (c =? 10).

(** One field as written: quoted when it holds a special character, with
    the quote character doubled. *)
Definition field (s : str) : str :=
  if existsb special s
  then [34] ++ flat_map (fun c => if c =? 34 then [34; 34] else [c]) s ++ [34]
  else s.

(** [writer.writerow(fields)]: [None] is written as the empty string, a
    row made of one empty field is written as two quote characters, the
    line terminator is CR LF. *)
Definition cell (v : option str) : str :=
  match v with Some s => s | None => [] end.

Definition writerow_text (fields : list (option str)) : str :=
  let joined := Str.join [44] (map (fun v => field (cell v)) fields) in
  match fields, joined with
  | _ :: _, [] => [34; 34] ++ [13; 10]
  | _, _ => joined ++ [13; 10]
  end.

(** [csv.DictWriter(csvfile, fieldnames=...)], with [restval] the empty
    string and [extrasaction] ["raise"]. *)
Record DictWriter := mkDictWriter {
  csvfile : str;
  fieldnames : list str
}.

(** [DictWriter._dict_to_list]. *)
Definition dict_to_list (wr : DictWriter) (rowdict : Py.record)
  : Py.M (list (option str)) :=
  let wrong_fields :=
    filter (fun k => negb (existsb (Str.eqb k) (fieldnames wr)))
           (Dict.keys rowdict) in
  match wrong_fields with
  | [] => Py.ret (map (fun key => match Dict.get rowdict key with
                                  | Some v => v
                                  | None => Some []
                                  end) (fieldnames wr))
  | _ :: _ => Py.raise (Py.ValueError wrong_fields)
  end.

Definition writerow (wr : DictWriter) (rowdict : Py.record) : Py.M unit :=
  fields <- dict_to_list wr rowdict ;;
  Py.file_write (csvfile wr) (writerow_text fields).

(** [dict(zip(fieldnames, fieldnames))]. *)
Definition header_dict (names : list str) : Py.record :=
  fold_left (fun d kv => Dict.setitem d (fst kv) (Some (snd kv)))
            (combine names names) [].

Definition writeheader (wr : DictWriter) : Py.M unit :=
  writerow wr (header_dict (fieldnames wr)).

(** [writerows]: the rows are converted and written one after the other,
    so a row that raises leaves the earlier ones written. *)
Fixpoint writerows (wr : DictWriter) (rowdicts : list Py.record) : Py.M unit :=
  match rowdicts with
  | [] => Py.ret tt
  | rowdict :: rest => writerow wr rowdict ;;; writerows wr rest
  end.

End Csv.

(* ===================================================================== *)
(** * webspider.py *)
(* ===================================================================== *)

Module WebSpider.
Import Py.

Section Analyzers.
Context `{backend : Bs4.Backend}.
Variable net : Requests.Network.

  (** The [for key, selector in target_elements.items()] loop of
      [scrape_website]. *)
Fixpoint scrape_loop (soup : Bs4.Document) (items : list (str * str))
           (extracted_data : record) : M record :=
    match items with
    | [] => ret extracted_data
    | (key, selector) :: rest =>
        element <- Bs4.select_one_M soup selector ;;
        scrape_loop soup rest
          (Dict.setitem extracted_data key
             (match element with
              | Some el => Some (Str.strip (Bs4.tag_text el))
              | None => None
              end))
    end.

Definition scrape_website (url : str) (target_elements : dict str) : M record :=
    try_except
      (response <- Requests.get net url ;;
       Requests.raise_for_status response ;;;
       soup <- Bs4.BeautifulSoup_M (Requests.text response) ;;
       scrape_loop soup target_elements [])
      (fun e =>
         if isinstance_RequestException e
         then Some (print (Error_fetching_the_URL e) ;;; ret [])
         else Some (print (An_error_occurred e) ;;; ret [])).

Definition extract_keywords (url : str) : M (list str) :=
    try_except
      (response <- Requests.get net url ;;
       Requests.raise_for_status response ;;;
       soup <- Bs4.BeautifulSoup_M (Requests.text response) ;;
       let keywords_meta := Bs4.find_meta_named soup (py "keywords") in
       match keywords_meta with
       | Some meta =>
           match Bs4.tag_get meta (py "content") with
           | Some ((_ :: _) as content) =>
               ret (map Str.strip (Str.split 44 content))
           | _ => ret []
           end
       | None => ret []
       end)
      (fun e =>
         if isinstance_RequestException e
         then Some (print (Error_fetching_the_URL_for_keywords e) ;;; ret [])
         else None).

  (** [f"{url.rstrip('/')}/robots.txt"]. *)
Definition robots_url (url : str) : str :=
    Str.rstrip_chars (py "/") url ++ py "/robots.txt".

  (** The [for line in response.text.splitlines()] loop. *)
Fixpoint rules_loop (lines : list str) (rules : dict (list str))
    : dict (list str) :=
    match lines with
    | [] => rules
    | line :: rest =>
        let line := Str.strip line in
        if Str.startswith (py "User-agent") line
           || Str.startswith (py "Disallow") line
           || Str.startswith (py "Allow") line
        then
          let '(key, _, value) := Str.partition 58 line in
          let k := Str.strip key in
          rules_loop rest
            (Dict.mutate (Dict.setdefault rules k []) k
                         (fun l => l ++ [Str.strip value]))
        else rules_loop rest rules
    end.

Definition check_robots_txt (url : str) : M (dict (list str)) :=
    let robots_url := robots_url url in
    try_except
      (response <- Requests.get net robots_url ;;
       if (Requests.status_code response =? 200)%Z
       then ret (rules_loop (Str.splitlines (Requests.text response)) [])
       else print (robots_txt_not_found_at robots_url) ;;; ret [])
      (fun e =>
         if isinstance_RequestException e
         then Some (print (Error_fetching_robots_txt e) ;;; ret [])
         else None).

Definition detect_web_technologies (url : str) : M (list str) :=
    try_except
      (response <- Requests.get net url ;;
       let headers := Requests.headers response in
       let technologies := [] in
       let technologies :=
         match Requests.ci_get headers (py "X-Powered-By") with
         | Some v => technologies ++ [v]
         | None => technologies
         end in
       let technologies :=
         match Requests.ci_get headers (py "Server") with
         | Some v => technologies ++ [v]
         | None => technologies
         end in
       ret technologies)
      (fun e =>
         if isinstance_RequestException e
         then Some (print (Error_detecting_technologies e) ;;; ret [])
         else None).
End Analyzers.

Section DateFilter.
  (** [datetime.datetime.strptime(s, fmt).date()]: the date, or the
      exception raised: [ValueError] when [s] does not match [fmt] or
      [fmt] has a bad directive, [re.error] when [fmt] repeats a
      directive. *)
Variable strptime : str -> str -> Result date.

  (** Truth value of [item.get(date_key)]. *)
Definition truthy (v : option (option str)) : bool :=
    match v with
    | Some (Some (_ :: _)) => true
    | _ => false
    end.

  (** [item[date_key]]. *)
Definition getitem (item : record) (k : str) : M (option str) :=
    match Dict.get item k with
    | Some v => ret v
    | None => raise (KeyError k)
    end.

Definition strptime_date (v : option str) (date_format : str) : M date :=
    match v with
    | None => raise TypeError
    | Some s =>
        match strptime s date_format with
        | Return d => ret d
        | Raise e => raise e
        end
    end.

  (** The loop of [filter_by_date]; [filtered_data] is the list built so
      far. *)
Fixpoint filter_loop (data : list record) (date_key date_format : str)
           (date_threshold : date) (filtered_data : list record)
    : M (list record) :=
    match data with
    | [] => ret filtered_data
    | item :: rest =>
        filtered_data' <-
          try_except
            (if negb (truthy (Dict.get item date_key))
             then print (Warning_Missing_date_for_item item) ;;;
                  ret filtered_data
             else
               v <- getitem item date_key ;;
               item_date <- strptime_date v date_format ;;
               if date_leb date_threshold item_date
               then ret (filtered_data ++ [item])
               else ret filtered_data)
            (fun e =>
               if isinstance_ValueError_or_KeyError e
               then Some (print (Error_processing_date_for_item item e) ;;;
                          ret filtered_data)
               else None) ;;
        filter_loop rest date_key date_format date_threshold filtered_data'
    end.

Definition filter_by_date (data : list record) (date_key date_format : str)
             (date_threshold : option date) : M (list record) :=
    date_threshold <-
      match date_threshold with
      | Some t => ret t
      | None => date_today
      end ;;
    filter_loop data date_key date_format date_threshold [].
End DateFilter.

Definition save_to_csv (data : list record) (filename : str) : M unit :=
  match data with
  | [] => print No_data_to_save
  | first :: _ =>
      let keys := Dict.keys first in
      open_w filename ;;;
      let writer := Csv.mkDictWriter filename keys in
      Csv.writeheader writer ;;;
      Csv.writerows writer data ;;;
      print (Data_saved_to filename)
  end.

End WebSpider.

(* ===================================================================== *)
(** * Concrete capabilities, used to run the functions on examples *)
(* ===================================================================== *)

Module Demo.
Import Py.

(** A one-element page: the page text is the text of its [title]
    element, no other selector matches, and the empty string is not a
    selector. The parser rejects the one text <![UNKNOWN[]]> (a marked
    section with an unknown keyword). *)
#[local] Instance backend : Bs4.Backend := {|
  Bs4.Document := str;
  Bs4.Tag := str;
  Bs4.BeautifulSoup := fun text =>
    if Str.eqb text (py "<![UNKNOWN[]]>") then None else Some text;
  Bs4.select_one := fun soup selector =>
    match selector with
    | [] => Bs4.Rejected
    | _ => if Str.eqb selector (py "title") then Bs4.Matched soup
           else Bs4.NoMatch
    end;
  Bs4.find_meta_named := fun _ _ => None;
  Bs4.tag_get := fun _ _ => None;
  Bs4.tag_text := fun t => t
|}.

Definition digit (c : N) : option Z :=
  if (48 <=? c) && (c <=? 57) then Some (Z.of_N (c - 48)) else None.

Definition is_leap (y : Z) : bool :=
  ((y mod 4 =? 0) && (negb (y mod 100 =? 0) || (y mod 400 =? 0)))%Z.

Definition days_in_month (y m : Z) : Z :=
  (if m =? 2 then (if is_leap y then 29 else 28)
   else if (m =? 4) || (m =? 6) || (m =? 9) || (m =? 11) then 30
   else 31)%Z.

(** [datetime(y, m, d).date()], or [None] for the [ValueError]. *)
Definition make_date (y m d : Z) : option date :=
  if ((1 <=? y) && (1 <=? m) && (m <=? 12) && (1 <=? d)
      && (d <=? days_in_month y m))%Z
  then Some (mkdate y m d) else None.

(** One or two ASCII digits at the head of [s], longest first, and the
    rest of [s]. *)
Definition number12 (s : str) : option (Z * str) :=
  match s with
  | a :: b :: rest =>
      match digit a, digit b with
      | Some x, Some y => Some ((10 * x + y)%Z, rest)
      | Some x, None => Some (x, b :: rest)
      | _, _ => None
      end
  | [a] => match digit a with Some x => Some (x, []) | None => None end
  | [] => None
  end.

(** A day: as [number12], or a space and one digit from 1 to 9. *)
Definition day12 (s : str) : option (Z * str) :=
  match s with
  | 32 :: c :: rest =>
      match digit c with
      | Some x => if (1 <=? x)%Z then Some (x, rest) else None
      | None => None
      end
  | _ => number12 s
  end.

(** A text read at the format [%Y-%m-%d], on ASCII digits: four digits
    of year, a month of one or two digits, a day. ([strptime] also
    reads the other decimal digits of Unicode; this example answers
    them as a mismatch.) *)
Definition parse_ymd (s : str) : option date :=
  match s with
  | y1 :: y2 :: y3 :: y4 :: 45 :: s1 =>
      match digit y1, digit y2, digit y3, digit y4, number12 s1 with
      | Some a, Some b, Some c, Some d, Some (m, 45 :: s2) =>
          match day12 s2 with
          | Some (dd, []) => make_date (1000 * a + 100 * b + 10 * c + d) m dd
          | _ => None
          end
      | _, _, _, _, _ => None
      end
  | _ => None
  end.

(** [strptime] at two formats: the default [%Y-%m-%d], where a text
    that does not match gives [ValueError], and [%Y %Y], which repeats
    a directive and gives [re.error] whatever the text. Any other
    format is answered as a mismatch: this instance is only run at
    these two. *)
Definition strptime (s date_format : str) : Result date :=
  if Str.eqb date_format (py "%Y-%m-%d")
  then match parse_ymd s with
       | Some d => Return d
       | None => Raise (ValueError [s; date_format])
       end
  else if Str.eqb date_format (py "%Y %Y")
  then Raise (ReError (py "redefinition of group name"))
  else Raise (ValueError [s; date_format]).

(** A network with one site. *)
Definition robots_body : str :=
  py "User-agent: *" ++ [10] ++ py "Disallow: /admin" ++ [10]
     ++ py "Disallow: /tmp" ++ [10].

Definition net (url : str) : Requests.outcome :=
  if Str.eqb url (py "http://site/robots.txt")
  then Requests.Fetched (Requests.mkResponse 200 [] robots_body)
  else if Str.eqb url (py "http://site/")
  then Requests.Fetched
         (Requests.mkResponse 200 [(py "Server", py "nginx")] (py " Home "))
  else if Str.eqb url (py "http://site/gone")
  then Requests.Fetched
         (Requests.mkResponse 404 [(py "Server", py "nginx")] (py "Not Found"))
  else if Str.eqb url (py "http://site/broken")
  then Requests.Fetched (Requests.mkResponse 200 [] (py "<![UNKNOWN[]]>"))
  else Requests.Failed (py "connection refused").

Definition world0 : World :=
  {| stdout := []; files := []; writable := fun _ => true;
     today := mkdate 2024 6 15 |}.

End Demo.

(* ===================================================================== *)
(** * Predicates used in the statements *)
(* ===================================================================== *)

Module Props.
Import Py.

(** The robots.txt location as the specification words it: exactly one
    trailing slash is removed from the root before the suffix is added. *)
Definition strip_one_trailing_slash (url : str) : str :=
  match rev url with
  | 47 :: r => rev r
  | _ => url
  end.

Definition robots_url_one_slash (url : str) : str :=
  strip_one_trailing_slash url ++ py "/robots.txt".

(** The three directives of a robots policy. *)
Definition directives : list str :=
  [py "User-agent"; py "Disallow"; py "Allow"].

(** [s] begins with one of the three directive names. *)
Definition has_directive_prefix (s : str) : bool :=
  existsb (fun d => Str.startswith d s) directives.

(** A line that is blank, or a comment, once trimmed. *)
Definition comment_or_blank (line : str) : bool :=
  match Str.strip line with
  | [] => true
  | c :: _ => c =? 35
  end.

(** [a] is a subsequence of [b]: same elements, same relative order. *)
Inductive subseq {A : Type} : list A -> list A -> Prop :=
| subseq_nil : subseq [] []
| subseq_skip x a b : subseq a b -> subseq a (x :: b)
| subseq_keep x a b : subseq a b -> subseq (x :: a) (x :: b).

(** [a] is on or before [b], and [a] is strictly before [b], in the
    calendar: by year, then month, then day. *)
Definition date_le (a b : date) : Prop :=
  (year a < year b \/
   (year a = year b /\
    (month a < month b \/ (month a = month b /\ day a <= day b))))%Z.



(** The same for one record: reading its date text, if it has one,
    raises nothing that [filter_by_date] does not catch. *)
Definition caught (strptime : str -> str -> Result date)
           (date_key date_format : str) (item : record) : bool :=
  match Dict.get item date_key with
  | Some (Some (c :: s)) =>
      match strptime (c :: s) date_format with
      | Return _ => true
      | Raise e => isinstance_ValueError_or_KeyError e
      end
  | _ => true
  end.

(** The date of a record: its date field holds a non-empty text that
    [strptime] reads as [d]. *)
Definition record_date (strptime : str -> str -> Result date)
           (date_key date_format : str) (item : record) : option date :=
  match Dict.get item date_key with
  | Some (Some (c :: s)) =>
      match strptime (c :: s) date_format with
      | Return d => Some d
      | Raise _ => None
      end
  | _ => None
  end.

(** The record passes the filter: it has a date, on or after the
    threshold. *)
Definition on_or_after (strptime : str -> str -> Result date)
           (date_key date_format : str) (threshold : date) (item : record)
  : bool :=
  match record_date strptime date_key date_format item with
  | Some d => date_leb threshold d
  | None => false
  end.

(** What [filter_by_date] prints for one record. *)
Definition skip_lines (strptime : str -> str -> Result date)
           (date_key date_format : str) (item : record) : list line :=
  match Dict.get item date_key with
  | Some (Some (c :: s)) =>
      match strptime (c :: s) date_format with
      | Return _ => []
      | Raise e =>
          if isinstance_ValueError_or_KeyError e
          then [Error_processing_date_for_item item e]
          else []
      end
  | _ => [Warning_Missing_date_for_item item]
  end.

(** Two records with dates, used as example data. *)
Definition march : record :=
  [(py "title", Some (py "spring")); (py "date", Some (py "2024-03-01"))].
Definition may : record :=
  [(py "title", Some (py "summer")); (py "date", Some (py "2024-05-01"))].

(** The value [scrape_website] stores for a selector: the trimmed text
    of the first matching element, or [None] when nothing matches. *)
Definition field_value `{Bs4.Backend} (soup : Bs4.Document) (selector : str)
  : option str :=
  match Bs4.select_one soup selector with
  | Bs4.Matched el => Some (Str.strip (Bs4.tag_text el))
  | _ => None
  end.

(** [v] is [text] without the white space at its two ends. *)
Definition stripped_of (text v : str) : Prop :=
  exists l r,
    text = l ++ v ++ r /\
    forallb Str.is_space l = true /\ forallb Str.is_space r = true /\
    (forall c t, v = c :: t -> Str.is_space c = false) /\
    (forall t c, v = t ++ [c] -> Str.is_space c = false).

(** The header values [detect_web_technologies] reports. *)
Definition powered_by_then_server (h : Requests.CaseInsensitiveDict) : list str :=
  match Requests.ci_get h (py "X-Powered-By") with
  | Some v => [v]
  | None => []
  end ++
  match Requests.ci_get h (py "Server") with
  | Some v => [v]
  | None => []
  end.

(** The cells of a CSV row: for each column, the text the record holds
    under that name, or the empty text when it holds [None] or nothing. *)
Definition cells (names : list str) (r : record) : list str :=
  map (fun key => match Dict.get r key with
                  | Some (Some s) => s
                  | _ => []
                  end) names.

(** The text of a CSV row with the given cells. *)
Definition row_text (cs : list str) : str := Csv.writerow_text (map Some cs).

(** Every cell of the row of [r] can be encoded to UTF-8. *)
Definition encodable_cells (names : list str) (r : record) : bool :=
  forallb Str.encodable (cells names r).

(** The keys of [r] that are not column names. *)
Definition extra_keys (names : list str) (r : record) : list str :=
  filter (fun k => negb (existsb (Str.eqb k) names)) (Dict.keys r).

(** Every key of [r] is a column name. *)
Definition conforms (names : list str) (r : record) : bool :=
  forallb (fun k => existsb (Str.eqb k) names) (Dict.keys r).

(** The row of [r] can be written: every key is a column name and
    every cell can be encoded. *)
Definition row_ok (names : list str) (r : record) : bool :=
  conforms names r && encodable_cells names r.

(** What writing the row of [r] raises when it cannot be written:
    [ValueError] for a key that is no column, found before anything is
    encoded, [UnicodeEncodeError] otherwise. *)
Definition row_error (names : list str) (r : record) : exn :=
  if conforms names r
  then UnicodeEncodeError (row_text (cells names r))
  else ValueError (extra_keys names r).


(** Every value of the dict is its own key. *)
Definition diagonal (d : record) : Prop :=
  forall k v, Dict.get d k = Some v -> v = Some k.

(** The example records of the CSV export. *)
Definition ab : record := [(py "a", Some (py "1")); (py "b", Some (py "2"))].
Definition only_a : record := [(py "a", Some (py "3"))].

(** A network that answers every request with status 200 and [body]. *)
Definition serving (body : str) : Requests.Network :=
  fun _ => Requests.Fetched (Requests.mkResponse 200 [] body).

(** The page at [url] is fetched, without an error status, and the
    parser rejects its text. *)
Definition page_rejected `{Bs4.Backend} (net : Requests.Network) (url : str)
  : bool :=
  match net url with
  | Requests.Fetched r =>
      negb (Requests.is_http_error (Requests.status_code r)) &&
      match Bs4.BeautifulSoup (Requests.text r) with
      | Some _ => false
      | None => true
      end
  | Requests.Failed _ => false
  end.


End Props.

(* ===================================================================== *)
(** * Further descriptions used in statements *)
(* ===================================================================== *)

Module Descr.
Import Py.

(** [s] has no white space at either end: trimming leaves it alone. *)
Definition trimmed (s : str) : Prop := Str.strip s = s.

(** The directive and the value a line of robots.txt contributes, when
    the line is recognised. *)
Definition entry_of_line (line : str) : option (str * str) :=
  let l := Str.strip line in
  if Props.has_directive_prefix l
  then Some (Str.strip (fst (fst (Str.partition 58 l))),
             Str.strip (snd (Str.partition 58 l)))
  else None.

Fixpoint entries (lines : list str) : list (str * str) :=
  match lines with
  | [] => []
  | line :: rest =>
      match entry_of_line line with
      | Some e => e :: entries rest
      | None => entries rest
      end
  end.

(** The values contributed under the key [k], in line order. *)
Definition values_for (k : str) (es : list (str * str)) : list str :=
  map snd (filter (fun e => Str.eqb (fst e) k) es).


(** [w'] differs from [w] at most in standard output and in the file
    [filename]. *)
Definition same_but (filename : str) (w w' : World) : Prop :=
  (forall f, f <> filename -> Dict.get (files w') f = Dict.get (files w) f) /\
  writable w' = writable w /\ today w' = today w.

(** Two records hold the same value under every name (their own key
    orders may differ). *)
Definition same_mapping (r r' : record) : Prop :=
  forall k, Dict.get r k = Dict.get r' k.


(** The header names the technology detector looks at. *)
Definition fingerprint_header (k : str) : Prop :=
  Requests.lower k = Requests.lower (py "X-Powered-By") \/
  Requests.lower k = Requests.lower (py "Server").

End Descr.

(* ===================================================================== *)
(** * The driver: the [__main__] block *)
(* ===================================================================== *)

Module Main.
Import Py.

(** A line of the program's standard output: printed by the driver
    itself, or ([Lib]) inside one of the functions it calls. *)
Inductive out_line :=
| Lib (l : line)
| Scraping_website (url : str)
| Filtered_Data
| Item (item : record)
| No_data_matching_the_date_criteria
| Extracting_keywords
| Keywords (keywords : list str)
| Checking_robots_txt
| Robots_txt_Rules (robots_rules : dict (list str))
| Detecting_web_technologies
| Detected_Technologies (technologies : list str).

(** The driver's view of the world: the whole output so far, the files,
    which paths can be opened, the date. *)
Record State := mkState {
  out : list out_line;
  fs : dict str;
  can_open : str -> bool;
  clock : date
}.

Definition D (A : Type) : Type := State -> Result A * State.

Definition dret {A} (a : A) : D A := fun s => (Return a, s).

Definition dbind {A B} (m : D A) (k : A -> D B) : D B :=
  fun s => match m s with
           | (Return a, s') => k a s'
           | (Raise e, s') => (Raise e, s')
           end.

(** The state after more lines on the output. *)
Definition emit (s : State) (ls : list out_line) : State :=
  {| out := out s ++ ls; fs := fs s; can_open := can_open s;
     clock := clock s |}.

(** A [print] of the driver. *)
Definition say (l : out_line) : D unit := fun s => (Return tt, emit s [l]).

(** The world a called function starts in; its own output is collected
    from empty. *)
Definition world_of (s : State) : World :=
  {| stdout := []; files := fs s; writable := can_open s; today := clock s |}.

(** A call of one of the functions: what it prints goes to the same
    output, after what is already there; what it does to the files
    stays. *)
Definition call {A} (m : M A) : D A :=
  fun s =>
    let '(r, w') := m (world_of s) in
    (r, {| out := out s ++ map Lib (stdout w'); fs := files w';
           can_open := writable w'; clock := today w' |}).

(** [for item in filtered_data: print(item)]. *)
Fixpoint say_items (items : list record) : D unit :=
  match items with
  | [] => dret tt
  | item :: rest => dbind (say (Item item)) (fun _ => say_items rest)
  end.

Definition website_url : str := py "https://internshala.com/".

Definition elements_to_scrape : dict str :=
  [(py "title", py "title");
   (py "date",
    py "meta[property='article:published_time'], meta[name='date'], time[datetime]");
   (py "description", py "meta[name='description']")].

Definition csv_name : str := py "scraped_data.csv".

Section Driver.
Context `{backend : Bs4.Backend}.
Variable net : Requests.Network.
Variable strptime : str -> str -> Result date.

Definition main : D unit :=
  dbind (say (Scraping_website website_url)) (fun _ =>
  dbind (call (WebSpider.scrape_website net website_url elements_to_scrape))
        (fun scraped =>
  let scraped_data := [scraped] in
  dbind (call (WebSpider.filter_by_date strptime scraped_data (py "date")
                                        (py "%Y-%m-%d") None))
        (fun filtered_data =>
  dbind (match filtered_data with
         | _ :: _ =>
             dbind (say Filtered_Data) (fun _ =>
             dbind (say_items filtered_data) (fun _ =>
             call (WebSpider.save_to_csv filtered_data csv_name)))
         | [] => say No_data_matching_the_date_criteria
         end) (fun _ =>
  dbind (say Extracting_keywords) (fun _ =>
  dbind (call (WebSpider.extract_keywords net website_url)) (fun keywords =>
  dbind (say (Keywords keywords)) (fun _ =>
  dbind (say Checking_robots_txt) (fun _ =>
  dbind (call (WebSpider.check_robots_txt net website_url)) (fun robots_rules =>
  dbind (say (Robots_txt_Rules robots_rules)) (fun _ =>
  dbind (say Detecting_web_technologies) (fun _ =>
  dbind (call (WebSpider.detect_web_technologies net website_url))
        (fun technologies =>
  say (Detected_Technologies technologies))))))))))))).
End Driver.

(** The state the driver starts from in the world [w]. *)
Definition start (w : World) : State :=
  {| out := []; fs := files w; can_open := writable w; clock := today w |}.

End Main.

(** A page that is one [keywords] meta tag: the page text is the
    tag's [content]; no selector matches. *)
Module DemoMeta.

#[local] Instance meta_backend : Bs4.Backend := {|
  Bs4.Document := str;
  Bs4.Tag := str;
  Bs4.BeautifulSoup := fun text => Some text;
  Bs4.select_one := fun _ selector =>
    match selector with
    | [] => Bs4.Rejected
    | _ => Bs4.NoMatch
    end;
  Bs4.find_meta_named := fun soup name =>
    if Str.eqb name (py "keywords") then Some soup else None;
  Bs4.tag_get := fun t attr =>
    if Str.eqb attr (py "content") then Some t else None;
  Bs4.tag_text := fun _ => []
|}.

End DemoMeta.

(** A page on which every selector matches one element, whose text is
    the page text. *)
Module DemoDated.

#[local] Instance dated_backend : Bs4.Backend := {|
  Bs4.Document := str;
  Bs4.Tag := str;
  Bs4.BeautifulSoup := fun text => Some text;
  Bs4.select_one := fun soup selector =>
    match selector with
    | [] => Bs4.Rejected
    | _ => Bs4.Matched soup
    end;
  Bs4.find_meta_named := fun _ _ => None;
  Bs4.tag_get := fun _ _ => None;
  Bs4.tag_text := fun t => t
|}.

End DemoDated.

(* ===================================================================== *)
(** * The string functions and the CSV writer on examples *)
(* ===================================================================== *)

Example strip_both_ends :
  Str.strip ([9; 32] ++ py "a b" ++ [32; 13; 10]) = py "a b".
Proof. reflexivity. Qed.

Example rstrip_chars_all_slashes :
  Str.rstrip_chars (py "/") (py "http://site///") = py "http://site".
Proof. reflexivity. Qed.

Example partition_first_colon :
  Str.partition 58 (py "Allow: /a:b") = (py "Allow", py ":", py " /a:b").
Proof. reflexivity. Qed.

Example partition_no_colon :
  Str.partition 58 (py "Allow /a") = (py "Allow /a", [], []).
Proof. reflexivity. Qed.

Example split_keeps_empty_pieces :
  Str.split 44 (py "a,,b,") = [py "a"; []; py "b"; []].
Proof. reflexivity. Qed.

Example splitlines_mixed_breaks :
  Str.splitlines (py "a" ++ [13; 10] ++ py "b" ++ [10; 10] ++ py "c" ++ [13])
  = [py "a"; py "b"; []; py "c"].
Proof. reflexivity. Qed.

Example splitlines_empty : Str.splitlines [] = [].
Proof. reflexivity. Qed.

Example csv_field_quoted :
  Csv.field (py "a,b") = [34] ++ py "a,b" ++ [34] /\
  Csv.field ([34] ++ py "x") = [34; 34; 34] ++ py "x" ++ [34] /\
  Csv.field (py "plain text") = py "plain text".
Proof. repeat split; reflexivity. Qed.

Example csv_lone_empty_field :
  Csv.writerow_text [None] = [34; 34; 13; 10] /\
  Csv.writerow_text [] = [13; 10] /\
  Csv.writerow_text [None; Some (py "x")] = py ",x" ++ [13; 10].
Proof. repeat split; reflexivity. Qed.

Example strptime_default_format :
  Demo.strptime (py "2024-02-29") (py "%Y-%m-%d")
  = Py.Return (Py.mkdate 2024 2 29) /\
  Demo.strptime (py "2023-02-29") (py "%Y-%m-%d")
  = Py.Raise (Py.ValueError [py "2023-02-29"; py "%Y-%m-%d"]) /\
  Demo.strptime (py "2024-3-1") (py "%Y-%m-%d")
  = Py.Return (Py.mkdate 2024 3 1) /\
  Demo.strptime (py "2024-01- 5") (py "%Y-%m-%d")
  = Py.Return (Py.mkdate 2024 1 5) /\
  Demo.strptime (py "01/03/2024") (py "%Y-%m-%d")
  = Py.Raise (Py.ValueError [py "01/03/2024"; py "%Y-%m-%d"]) /\
  Demo.strptime (py "2020 2020") (py "%Y %Y")
  = Py.Raise (Py.ReError (py "redefinition of group name")).
Proof. repeat split; reflexivity. Qed.

Example encodable_surrogate :
  Str.encodable (py "caf" ++ [233; 8364; 128512]) = true /\
  Str.encodable (py "a" ++ [55296]) = false.
Proof. split; reflexivity. Qed.

(* ===================================================================== *)
(** * Lemmas on strings and dicts *)
(* ===================================================================== *)

Section StrLemmas.

Lemma str_eqb_eq (a b : str) : Str.eqb a b = true <-> a = b.
Proof.
    revert b; induction a as [|x a IH]; intros [|y b]; simpl;
      try (split; [discriminate | discriminate]); try tauto.
    rewrite andb_true_iff, N.eqb_eq, IH.
    split; [intros [-> ->]; reflexivity | intros [= -> ->]; auto].
Qed.

Lemma str_eqb_refl (a : str) : Str.eqb a a = true.
Proof. apply str_eqb_eq; reflexivity. Qed.

Lemma str_eqb_neq (a b : str) : Str.eqb a b = false <-> a <> b.
Proof.
    rewrite <- str_eqb_eq. destruct (Str.eqb a b); split; congruence.
Qed.

Lemma startswith_nonempty (p s : str) :
    p <> [] -> Str.startswith p s = true -> s <> [].
Proof. destruct p, s; simpl; congruence. Qed.





Lemma rstrip_chars_all (chars s : str) :
    forallb (fun c => Str.mem c chars) s = true ->
    Str.rstrip_chars chars s = [].
Proof.
    induction s as [|c s IH]; simpl; [reflexivity|].
    intros H. apply andb_true_iff in H as [Hc Hs].
    rewrite (IH Hs), Hc. reflexivity.
Qed.

Lemma rstrip_chars_app (chars s t : str) :
    Str.rstrip_chars chars t = [] ->
    Str.rstrip_chars chars (s ++ t) = Str.rstrip_chars chars s.
Proof.
    intros Ht. induction s as [|c s IH]; simpl; [exact Ht|].
    rewrite IH. reflexivity.
Qed.

  (** A string that does not end in a character of [chars] is left
      alone. *)
Lemma rstrip_chars_id (chars s : str) :
    (forall s' c, s = s' ++ [c] -> Str.mem c chars = false) ->
    Str.rstrip_chars chars s = s.
Proof.
    induction s as [|c s IH]; intros H; simpl; [reflexivity|].
    destruct s as [|d s].
    - simpl. rewrite (H [] c eq_refl). reflexivity.
    - rewrite IH.
      + reflexivity.
      + intros s' c' E. apply (H (c :: s') c'). rewrite E. reflexivity.
Qed.

End StrLemmas.

Lemma rstrip_idem (s : str) : Str.rstrip (Str.rstrip s) = Str.rstrip s.
Proof.
  induction s as [|c s IH]; [reflexivity|].
  simpl. destruct (Str.rstrip s) as [|x r] eqn:E.
  - destruct (Str.is_space c) eqn:Hc; [reflexivity|].
    simpl. rewrite Hc. reflexivity.
  - change (Str.rstrip (c :: x :: r)) with
      (match Str.rstrip (x :: r) with
       | [] => if Str.is_space c then [] else [c]
       | y :: r' => c :: y :: r'
       end).
    rewrite IH. reflexivity.
Qed.

Lemma lstrip_head (s : str) :
  Str.lstrip s = [] \/
  exists c r, Str.lstrip s = c :: r /\ Str.is_space c = false.
Proof.
  induction s as [|c s IH]; [left; reflexivity|].
  simpl. destruct (Str.is_space c) eqn:Hc; [exact IH|].
  right; exists c, s. auto.
Qed.

Lemma rstrip_head (c : N) (r : str) :
  Str.is_space c = false -> exists r', Str.rstrip (c :: r) = c :: r'.
Proof.
  intros Hc. simpl. destruct (Str.rstrip r) as [|x r'].
  - rewrite Hc. exists []. reflexivity.
  - exists (x :: r'). reflexivity.
Qed.

(** Trimming twice is trimming once. *)
Lemma strip_idem (s : str) : Descr.trimmed (Str.strip s).
Proof.
  unfold Descr.trimmed, Str.strip.
  destruct (lstrip_head s) as [->|[c [r [-> Hc]]]]; [reflexivity|].
  destruct (rstrip_head c r Hc) as [r' E].
  rewrite E. simpl Str.lstrip. rewrite Hc, <- E. apply rstrip_idem.
Qed.




(** A trimmed string neither starts nor ends with white space. *)
Lemma trimmed_ends (s : str) :
  Descr.trimmed s ->
  (forall c r, s = c :: r -> Str.is_space c = false) /\
  (forall r c, s = r ++ [c] -> Str.is_space c = false).
Proof.
  unfold Descr.trimmed, Str.strip. intros H. split.
  - intros c r ->.
    destruct (Str.is_space c) eqn:Hc; [|reflexivity]. exfalso.
    destruct (lstrip_head (c :: r)) as [E|[x [r' [E Hx]]]].
    + rewrite E in H. discriminate H.
    + rewrite E in H. destruct (rstrip_head x r' Hx) as [r'' E'].
      rewrite E' in H. injection H as -> _. congruence.
  - intros r c ->.
    assert (G : forall t r c, Str.rstrip t = r ++ [c] -> Str.is_space c = false).
    { clear. induction t as [|x t IH]; intros r c E.
      - destruct r; discriminate E.
      - simpl in E. destruct (Str.rstrip t) as [|y t'] eqn:Ht.
        + destruct (Str.is_space x) eqn:Hx.
          * destruct r; discriminate E.
          * destruct r as [|? [|? ?]]; try discriminate E.
            injection E as <-. exact Hx.
        + destruct r as [|z r]; [discriminate E|].
          injection E as _ E. apply (IH r c). exact E. }
    apply (G (Str.lstrip (r ++ [c])) r c). exact H.
Qed.

Lemma lstrip_split (s : str) :
  exists l, s = l ++ Str.lstrip s /\ forallb Str.is_space l = true.
Proof.
  induction s as [|c s [l [E Hl]]]; [exists []; auto|].
  simpl. destruct (Str.is_space c) eqn:Hc.
  - exists (c :: l). simpl. rewrite Hc, Hl, <- E. auto.
  - exists []. auto.
Qed.

Lemma rstrip_split (s : str) :
  exists r, s = Str.rstrip s ++ r /\ forallb Str.is_space r = true.
Proof.
  induction s as [|c s [r [E Hr]]]; [exists []; auto|].
  simpl. destruct (Str.rstrip s) as [|x q].
  - simpl in E. subst s. destruct (Str.is_space c) eqn:Hc.
    + exists (c :: r). simpl. rewrite Hc, Hr. auto.
    + exists r. auto.
  - exists r. rewrite E at 1. auto.
Qed.

(** What [strip] returns, said without [strip]: the text is white
    space, then the result, then white space, and the result has white
    space at neither end. *)
Lemma strip_spec (s : str) : Props.stripped_of s (Str.strip s).
Proof.
  destruct (lstrip_split s) as [l [El Hl]].
  destruct (rstrip_split (Str.lstrip s)) as [r [Er Hr]].
  exists l, r. unfold Str.strip.
  split; [rewrite <- Er; exact El|]. split; [exact Hl|]. split; [exact Hr|].
  apply (trimmed_ends (Str.rstrip (Str.lstrip s))). apply strip_idem.
Qed.


Section DictLemmas.
Context {V : Type}.
Implicit Types (d : dict V) (k : str).

Lemma get_None_keys d k : Dict.get d k = None <-> ~ In k (Dict.keys d).
Proof.
    induction d as [|[k' v] d IH]; simpl; [tauto|].
    destruct (Str.eqb k' k) eqn:E.
    - apply str_eqb_eq in E. split; [discriminate | intros H; exfalso; auto].
    - apply str_eqb_neq in E. rewrite IH. tauto.
Qed.

Lemma get_Some_keys d k v : Dict.get d k = Some v -> In k (Dict.keys d).
Proof.
    intros H. destruct (in_dec (list_eq_dec N.eq_dec) k (Dict.keys d)) as [|n];
      [assumption|]. apply get_None_keys in n. congruence.
Qed.



  (** Assignment keeps the keys when the key is present and appends it
      otherwise. *)
Lemma keys_setitem d k v :
    Dict.keys (Dict.setitem d k v) =
    if Dict.contains d k then Dict.keys d else Dict.keys d ++ [k].
Proof.
    unfold Dict.contains.
    induction d as [|[k' v'] d IH]; simpl; [reflexivity|].
    destruct (Str.eqb k' k) eqn:E; simpl; [reflexivity|].
    rewrite IH. destruct (Dict.get d k); reflexivity.
Qed.

Lemma get_setitem_same d k v : Dict.get (Dict.setitem d k v) k = Some v.
Proof.
    induction d as [|[k' v'] d IH]; simpl.
    - rewrite str_eqb_refl. reflexivity.
    - destruct (Str.eqb k' k) eqn:E; simpl; rewrite E; [reflexivity | exact IH].
Qed.

Lemma get_setitem_other d k k' v :
    k <> k' -> Dict.get (Dict.setitem d k v) k' = Dict.get d k'.
Proof.
    intros Hne. induction d as [|[k0 v0] d IH]; simpl.
    - apply str_eqb_neq in Hne. rewrite Hne. reflexivity.
    - destruct (Str.eqb k0 k) eqn:E; simpl.
      + apply str_eqb_eq in E; subst k0.
        apply str_eqb_neq in Hne. rewrite Hne. reflexivity.
      + rewrite IH. reflexivity.
Qed.

End DictLemmas.

(* ===================================================================== *)
(** * The robots.txt parser *)
(* ===================================================================== *)

Section Robots.
Import Py.
Variable net : Requests.Network.

(** [check_robots_txt], path by path. *)
Lemma check_robots_txt_eq (url : str) (w : World) :
  WebSpider.check_robots_txt net url w =
  match net (WebSpider.robots_url url) with
  | Requests.Fetched r =>
      if (Requests.status_code r =? 200)%Z
      then (Return (WebSpider.rules_loop (Str.splitlines (Requests.text r)) []), w)
      else (Return [],
            printed w (robots_txt_not_found_at (WebSpider.robots_url url)))
  | Requests.Failed reason =>
      (Return [],
       printed w (Error_fetching_robots_txt (RequestException reason)))
  end.
Proof.
  unfold WebSpider.check_robots_txt, try_except, bind, Requests.get.
  destruct (net (WebSpider.robots_url url)) as [r|reason]; simpl.
  - destruct (Requests.status_code r =? 200)%Z; reflexivity.
  - reflexivity.
Qed.

End Robots.

Lemma rules_loop_skip (line : str) (rest : list str) (rules : dict (list str)) :
  Props.has_directive_prefix (Str.strip line) = false ->
  WebSpider.rules_loop (line :: rest) rules = WebSpider.rules_loop rest rules.
Proof.
  unfold Props.has_directive_prefix, Props.directives.
  cbn [existsb WebSpider.rules_loop].
  set (a := Str.startswith (py "User-agent") (Str.strip line)).
  set (b := Str.startswith (py "Disallow") (Str.strip line)).
  set (c := Str.startswith (py "Allow") (Str.strip line)).
  destruct a, b, c; simpl; intros H; try discriminate H. reflexivity.
Qed.

Lemma rules_loop_take (line : str) (rest : list str) (rules : dict (list str)) :
  Props.has_directive_prefix (Str.strip line) = true ->
  WebSpider.rules_loop (line :: rest) rules =
  let k := Str.strip (fst (fst (Str.partition 58 (Str.strip line)))) in
  let v := Str.strip (snd (Str.partition 58 (Str.strip line))) in
  WebSpider.rules_loop rest
    (Dict.mutate (Dict.setdefault rules k []) k (fun l => l ++ [v])).
Proof.
  unfold Props.has_directive_prefix, Props.directives.
  cbn [existsb WebSpider.rules_loop].
  set (a := Str.startswith (py "User-agent") (Str.strip line)).
  set (b := Str.startswith (py "Disallow") (Str.strip line)).
  set (c := Str.startswith (py "Allow") (Str.strip line)).
  destruct (Str.partition 58 (Str.strip line)) as [[key found] value].
  destruct a, b, c; simpl; intros H; try discriminate H; reflexivity.
Qed.




Lemma comment_or_blank_not_directive (line : str) :
  Props.comment_or_blank line = true ->
  Props.has_directive_prefix (Str.strip line) = false.
Proof.
  unfold Props.comment_or_blank.
  destruct (Str.strip line) as [|c r]; [reflexivity|].
  intros H. apply N.eqb_eq in H; subst c. reflexivity.
Qed.

Lemma rules_loop_comments (lines : list str) (rules : dict (list str)) :
  forallb Props.comment_or_blank lines = true ->
  WebSpider.rules_loop lines rules = rules.
Proof.
  induction lines as [|line rest IH]; intros H; [reflexivity|].
  simpl in H. apply andb_true_iff in H as [Hl Hr].
  rewrite rules_loop_skip; [apply IH; exact Hr|].
  apply comment_or_blank_not_directive; exact Hl.
Qed.

Lemma endswith_last (c : N) (s : str) :
  Str.endswith [c] s = false ->
  forall s' c', s = s' ++ [c'] -> Str.mem c' [c] = false.
Proof.
  unfold Str.endswith, Str.mem. intros H s' c' ->.
  rewrite rev_app_distr in H. simpl in H. simpl.
  rewrite andb_true_r in H. rewrite orb_false_r, N.eqb_sym. exact H.
Qed.

(** C3, as the code has it: [check_robots_txt] removes every trailing
    slash of the root URL, not just one, before it appends
    [/robots.txt]; a root written as a stem that does not end in a slash
    followed by any number of slashes gives the stem plus
    [/robots.txt], and that location is the only one whose answer the
    function depends on. *)
Theorem robots_url_strips_every_trailing_slash :
  forall (stem : str) (n : nat),
    Str.endswith (py "/") stem = false ->
    WebSpider.robots_url (stem ++ repeat 47 n) = stem ++ py "/robots.txt" /\
    forall (net1 net2 : Requests.Network) (w : Py.World),
      net1 (stem ++ py "/robots.txt") = net2 (stem ++ py "/robots.txt") ->
      WebSpider.check_robots_txt net1 (stem ++ repeat 47 n) w =
      WebSpider.check_robots_txt net2 (stem ++ repeat 47 n) w.
Proof.
  intros stem n Hstem.
  assert (E : WebSpider.robots_url (stem ++ repeat 47 n)
              = stem ++ py "/robots.txt").
  { unfold WebSpider.robots_url. f_equal.
    change (py "/") with [47] in *.
    rewrite rstrip_chars_app.
    - apply rstrip_chars_id. apply endswith_last. exact Hstem.
    - apply rstrip_chars_all. induction n; simpl; auto. }
  split; [exact E|].
  intros net1 net2 w Hnet. rewrite !check_robots_txt_eq, E, Hnet. reflexivity.
Qed.

Lemma robots_url_strips_every_trailing_slash_witness :
  WebSpider.robots_url (py "http://site" ++ repeat 47 3)
  = py "http://site" ++ py "/robots.txt".
Proof.
  apply (robots_url_strips_every_trailing_slash (py "http://site") 3).
  reflexivity.
Defined.

(** C3, as stated, fails: on a root that ends in two slashes the code
    asks for [http://site/robots.txt], while removing exactly one slash
    would give [http://site//robots.txt]. *)
Lemma robots_url_one_slash_counterexample :
  WebSpider.robots_url (py "http://site//") = py "http://site/robots.txt" /\
  Props.robots_url_one_slash (py "http://site//") = py "http://site//robots.txt" /\
  WebSpider.robots_url (py "http://site//")
  <> Props.robots_url_one_slash (py "http://site//").
Proof.
  split; [reflexivity|]. split; [reflexivity|].
  vm_compute. discriminate.
Qed.




(** C5: a fetched robots.txt (status 200) whose lines are all comments
    or blank gives the empty policy and prints nothing; the body
    [User-agent: * / Disallow: /admin / Disallow: /tmp] (three lines,
    each ended by a line feed) gives [User-agent] with the value [*]
    and [Disallow] with [/admin] then [/tmp], in that order. *)
Theorem robots_comments_only_and_example :
  (forall (net : Requests.Network) (url : str) (w : Py.World)
          (resp : Requests.Response),
     net (WebSpider.robots_url url) = Requests.Fetched resp ->
     Requests.status_code resp = 200%Z ->
     forallb Props.comment_or_blank (Str.splitlines (Requests.text resp)) = true ->
     WebSpider.check_robots_txt net url w = (Py.Return [], w)) /\
  (forall (net : Requests.Network) (url : str) (w : Py.World)
          (resp : Requests.Response),
     net (WebSpider.robots_url url) = Requests.Fetched resp ->
     Requests.status_code resp = 200%Z ->
     Requests.text resp =
       py "User-agent: *" ++ [10] ++ py "Disallow: /admin" ++ [10]
          ++ py "Disallow: /tmp" ++ [10] ->
     WebSpider.check_robots_txt net url w =
     (Py.Return [(py "User-agent", [py "*"]);
                 (py "Disallow", [py "/admin"; py "/tmp"])], w)).
Proof.
  split; intros net url w resp Hnet Hstatus Hbody;
    rewrite check_robots_txt_eq, Hnet, Hstatus; simpl Z.eqb; cbv iota.
  - rewrite rules_loop_comments; [reflexivity | exact Hbody].
  - rewrite Hbody. reflexivity.
Qed.

Lemma robots_comments_only_and_example_witness :
  WebSpider.check_robots_txt
    (Props.serving (py "# no rules" ++ [10; 10] ++ py "  # none" ++ [10]))
    (py "http://site/") Demo.world0 = (Py.Return [], Demo.world0) /\
  WebSpider.check_robots_txt Demo.net (py "http://site/") Demo.world0 =
  (Py.Return [(py "User-agent", [py "*"]);
              (py "Disallow", [py "/admin"; py "/tmp"])], Demo.world0).
Proof.
  split.
  - eapply (proj1 robots_comments_only_and_example); reflexivity.
  - eapply (proj2 robots_comments_only_and_example); reflexivity.
Defined.

(* ===================================================================== *)
(** * The date filter *)
(* ===================================================================== *)

Ltac date_order :=
  unfold Py.date_leb, Py.date_ltb in *;
  repeat match goal with
         | d : Py.date |- _ => destruct d
         end;
  simpl in *;
  repeat match goal with
         | |- context [(?a <? ?b)%Z] => destruct (Z.ltb_spec a b)
         | |- context [(?a =? ?b)%Z] => destruct (Z.eqb_spec a b)
         | H : context [(?a <? ?b)%Z] |- _ => destruct (Z.ltb_spec a b)
         | H : context [(?a =? ?b)%Z] |- _ => destruct (Z.eqb_spec a b)
         end;
  simpl in *; try reflexivity; try discriminate; try lia.

(** [date_leb] is the order of (year, month, day) triples. *)
Lemma date_leb_spec (a b : Py.date) :
  Py.date_leb a b = true <->
  (Py.year a < Py.year b \/
   (Py.year a = Py.year b /\
    (Py.month a < Py.month b \/
     (Py.month a = Py.month b /\ Py.day a <= Py.day b))))%Z.
Proof. split; intros H; date_order. Qed.

Lemma date_ltb_leb (a b : Py.date) :
  Py.date_ltb a b = true -> Py.date_leb a b = true.
Proof. intros H; date_order. Qed.

Lemma subseq_refl {A : Type} (l : list A) : Props.subseq l l.
Proof. induction l; constructor; assumption. Qed.


Lemma date_leb_le (a b : Py.date) :
  Py.date_leb a b = true <-> Props.date_le a b.
Proof. unfold Props.date_le. split; intros H; date_order. Qed.


(** The first element of a list at which a test fails. *)
Lemma first_false {A : Type} (p : A -> bool) (l : list A) :
  forallb p l = false ->
  exists before bad after,
    l = before ++ bad :: after /\ forallb p before = true /\ p bad = false.
Proof.
  induction l as [|x l IH]; [discriminate|]. simpl.
  destruct (p x) eqn:E.
  - intros H. destruct (IH H) as [before [bad [after [-> [Hb Hbad]]]]].
    exists (x :: before), bad, after. simpl. rewrite E. auto.
  - intros _. exists [], x, l. auto.
Qed.

Section DateFilterFacts.
Import Py.
Variable strptime : str -> str -> Result date.
Variables date_key date_format : str.
Variable threshold : date.

(** One round of the loop on a record whose date text, if any, raises
    nothing the [except] clause does not catch: the record is appended
    when it passes, and its diagnostic is printed. *)
Lemma filter_loop_step (item : record) (rest filtered_data : list record)
      (w : World) :
  Props.caught strptime date_key date_format item = true ->
  WebSpider.filter_loop strptime (item :: rest) date_key date_format threshold
                        filtered_data w =
  WebSpider.filter_loop strptime rest date_key date_format threshold
    (filtered_data ++
     if Props.on_or_after strptime date_key date_format threshold item
     then [item] else [])
    (fold_left printed (Props.skip_lines strptime date_key date_format item) w).
Proof.
  cbn [WebSpider.filter_loop]. unfold bind at 1.
  unfold Props.caught, Props.on_or_after, Props.record_date, Props.skip_lines,
    try_except, WebSpider.getitem, WebSpider.truthy.
  destruct (Dict.get item date_key) as [[[|c s]|]|] eqn:Hget;
    cbn -[WebSpider.filter_loop]; intros Hc.
  1, 3, 4: rewrite app_nil_r; reflexivity.
  unfold bind, WebSpider.strptime_date, ret, raise.
  destruct (strptime (c :: s) date_format) as [d|e] eqn:Hparse;
    cbn -[WebSpider.filter_loop].
  - destruct (date_leb threshold d); cbn -[WebSpider.filter_loop];
      [reflexivity | rewrite app_nil_r; reflexivity].
  - rewrite Hc. cbn -[WebSpider.filter_loop]. rewrite app_nil_r. reflexivity.
Qed.

(** One round on a record whose date text makes [strptime] raise
    something else: the exception leaves the loop. *)
Lemma filter_loop_uncaught (item : record) (rest filtered_data : list record)
      (w : World) (c : N) (s : str) (e : exn) :
  Dict.get item date_key = Some (Some (c :: s)) ->
  strptime (c :: s) date_format = Raise e ->
  isinstance_ValueError_or_KeyError e = false ->
  WebSpider.filter_loop strptime (item :: rest) date_key date_format threshold
                        filtered_data w = (Raise e, w).
Proof.
  intros Hget Hparse He.
  cbn [WebSpider.filter_loop]. unfold bind at 1.
  unfold try_except, WebSpider.getitem, WebSpider.truthy.
  rewrite Hget. cbn -[WebSpider.filter_loop].
  unfold bind, WebSpider.strptime_date, ret, raise.
  rewrite Hparse. cbn -[WebSpider.filter_loop]. rewrite He. reflexivity.
Qed.

(** On such records the loop never raises: it appends the records that
    pass to the list built so far, in order, and prints one line for
    each record without a date or with a date that does not parse. *)
Lemma filter_loop_eq (data filtered_data : list record) (w : World) :
  forallb (Props.caught strptime date_key date_format) data = true ->
  WebSpider.filter_loop strptime data date_key date_format threshold
                        filtered_data w =
  (Return (filtered_data ++
           filter (Props.on_or_after strptime date_key date_format threshold)
                  data),
   fold_left printed
             (flat_map (Props.skip_lines strptime date_key date_format) data)
             w).
Proof.
  revert filtered_data w.
  induction data as [|item rest IH]; intros acc w Hc.
  - simpl. rewrite app_nil_r. reflexivity.
  - simpl in Hc. apply andb_true_iff in Hc as [Hi Hrest].
    rewrite (filter_loop_step _ _ _ _ Hi), (IH _ _ Hrest).
    cbn [filter flat_map]. rewrite fold_left_app.
    destruct (Props.on_or_after strptime date_key date_format threshold item);
      [rewrite <- app_assoc | rewrite app_nil_r]; reflexivity.
Qed.


Lemma filter_by_date_eq (data : list record) (w : World) :
  forallb (Props.caught strptime date_key date_format) data = true ->
  WebSpider.filter_by_date strptime data date_key date_format (Some threshold) w =
  (Return (filter (Props.on_or_after strptime date_key date_format threshold)
                  data),
   fold_left printed
             (flat_map (Props.skip_lines strptime date_key date_format) data)
             w).
Proof.
  intros Hc. unfold WebSpider.filter_by_date, bind, ret.
  apply filter_loop_eq; exact Hc.
Qed.

(** A record that is not safe to read holds a date text on which
    [strptime] raises something the [except] clause lets through. *)
Lemma uncaught_inv (item : record) :
  Props.caught strptime date_key date_format item = false ->
  exists c s e,
    Dict.get item date_key = Some (Some (c :: s)) /\
    strptime (c :: s) date_format = Raise e /\
    isinstance_ValueError_or_KeyError e = false.
Proof.
  unfold Props.caught.
  destruct (Dict.get item date_key) as [[[|c s]|]|]; try discriminate.
  destruct (strptime (c :: s) date_format) as [d|e] eqn:E; [discriminate|].
  intros H. exists c, s, e. auto.
Qed.



(** A record with a date is safe to read. *)
Lemma dated_caught (item : record) (d : date) :
  Props.record_date strptime date_key date_format item = Some d ->
  Props.caught strptime date_key date_format item = true.
Proof.
  unfold Props.record_date, Props.caught.
  destruct (Dict.get item date_key) as [[[|c s]|]|]; try reflexivity.
  destruct (strptime (c :: s) date_format); [reflexivity | discriminate].
Qed.


End DateFilterFacts.



Section DateFilterExtremes.
Import Py.
Variable strptime : str -> str -> Result date.
Variables date_key date_format : str.
Variable threshold : date.

Lemma filter_all (data : list record) :
  (forall item, In item data ->
     Props.on_or_after strptime date_key date_format threshold item = true) ->
  filter (Props.on_or_after strptime date_key date_format threshold) data = data.
Proof.
  induction data as [|item rest IH]; intros H; simpl; [reflexivity|].
  rewrite (H item (or_introl eq_refl)), IH; [reflexivity|].
  intros i Hi. apply H. right; exact Hi.
Qed.

Lemma filter_none (data : list record) :
  (forall item, In item data ->
     Props.on_or_after strptime date_key date_format threshold item = false) ->
  filter (Props.on_or_after strptime date_key date_format threshold) data = [].
Proof.
  induction data as [|item rest IH]; intros H; simpl; [reflexivity|].
  rewrite (H item (or_introl eq_refl)), IH; [reflexivity|].
  intros i Hi. apply H. right; exact Hi.
Qed.

(** Records that all have a date print nothing. *)
Lemma skip_lines_dated (data : list record) :
  (forall item, In item data ->
     exists d, Props.record_date strptime date_key date_format item = Some d) ->
  flat_map (Props.skip_lines strptime date_key date_format) data = [].
Proof.
  induction data as [|item rest IH]; intros H; simpl; [reflexivity|].
  rewrite IH; [|intros i Hi; apply H; right; exact Hi].
  destruct (H item (or_introl eq_refl)) as [d Hd].
  unfold Props.record_date in Hd. unfold Props.skip_lines.
  destruct (Dict.get item date_key) as [[[|c s]|]|]; try discriminate.
  destruct (strptime (c :: s) date_format); [reflexivity | discriminate].
Qed.

(** Records that all have a date are all safe to read. *)
Lemma all_dated_caught (data : list record) :
  (forall item, In item data ->
     exists d, Props.record_date strptime date_key date_format item = Some d) ->
  forallb (Props.caught strptime date_key date_format) data = true.
Proof.
  intros H. apply forallb_forall. intros item Hin.
  destruct (H item Hin) as [d Hd]. apply (dated_caught _ _ _ _ _ Hd).
Qed.

End DateFilterExtremes.

(** C8: when every record has a date and the threshold is strictly
    before all of them, [filter_by_date] returns the input unchanged,
    same records in the same order; when the threshold is strictly after
    all of them, it returns the empty list. In both cases nothing is
    printed. *)
Theorem filter_by_date_threshold_extremes :
  forall (strptime : str -> str -> Py.Result Py.date)
         (data : list Py.record) (date_key date_format : str)
         (threshold : Py.date) (w : Py.World),
    ((forall item, In item data ->
        exists d, Props.record_date strptime date_key date_format item = Some d /\
                  Py.date_ltb threshold d = true) ->
     WebSpider.filter_by_date strptime data date_key date_format
                              (Some threshold) w = (Py.Return data, w)) /\
    ((forall item, In item data ->
        exists d, Props.record_date strptime date_key date_format item = Some d /\
                  Py.date_ltb d threshold = true) ->
     WebSpider.filter_by_date strptime data date_key date_format
                              (Some threshold) w = (Py.Return [], w)).
Proof.
  intros strptime data date_key date_format threshold w.
  split; intros H;
    assert (Hd : forall item, In item data ->
              exists d, Props.record_date strptime date_key date_format item
                        = Some d)
      by (intros item Hin; destruct (H item Hin) as [d [Hd _]]; eauto);
    rewrite filter_by_date_eq by (apply all_dated_caught; exact Hd).
  - rewrite filter_all, skip_lines_dated; [reflexivity|exact Hd|].
    intros item Hin. destruct (H item Hin) as [d [Hi Hlt]].
    unfold Props.on_or_after. rewrite Hi. apply date_ltb_leb; exact Hlt.
  - rewrite filter_none, skip_lines_dated; [reflexivity|exact Hd|].
    intros item Hin. destruct (H item Hin) as [d [Hi Hlt]].
    unfold Props.on_or_after. rewrite Hi. unfold Py.date_leb.
    rewrite Hlt. reflexivity.
Qed.

Lemma filter_by_date_threshold_extremes_witness :
  WebSpider.filter_by_date Demo.strptime [Props.march; Props.may]
    (py "date") (py "%Y-%m-%d") (Some (Py.mkdate 2024 1 1)) Demo.world0
  = (Py.Return [Props.march; Props.may], Demo.world0) /\
  WebSpider.filter_by_date Demo.strptime [Props.march; Props.may]
    (py "date") (py "%Y-%m-%d") (Some (Py.mkdate 2025 1 1)) Demo.world0
  = (Py.Return [], Demo.world0).
Proof.
  split.
  - apply (proj1 (filter_by_date_threshold_extremes Demo.strptime
                    [Props.march; Props.may] (py "date") (py "%Y-%m-%d")
                    (Py.mkdate 2024 1 1) Demo.world0)).
    intros item [<-|[<-|[]]]; eexists; split; reflexivity.
  - apply (proj2 (filter_by_date_threshold_extremes Demo.strptime
                    [Props.march; Props.may] (py "date") (py "%Y-%m-%d")
                    (Py.mkdate 2025 1 1) Demo.world0)).
    intros item [<-|[<-|[]]]; eexists; split; reflexivity.
Defined.

(* ===================================================================== *)
(** * The fetch-based analyzers *)
(* ===================================================================== *)

Section AnalyzerFacts.
Import Py.
Context `{backend : Bs4.Backend}.
Variable net : Requests.Network.

(** The extraction loop either stores one value per rule, or stops at
    the first selector the backend rejects; it prints nothing. *)
Lemma scrape_loop_eq (soup : Bs4.Document) (items : list (str * str))
      (extracted_data : record) (w : World) :
  (forall key selector, In (key, selector) items ->
     Bs4.select_one soup selector <> Bs4.Rejected) ->
  WebSpider.scrape_loop soup items extracted_data w =
  (Return (fold_left (fun d kv => Dict.setitem d (fst kv)
                                    (Props.field_value soup (snd kv)))
                     items extracted_data), w).
Proof.
  revert extracted_data.
  induction items as [|[key selector] rest IH]; intros acc Hok; [reflexivity|].
  cbn [WebSpider.scrape_loop fold_left fst snd].
  unfold bind, Bs4.select_one_M, Props.field_value at 2.
  pose proof (Hok key selector (or_introl eq_refl)) as Hsel.
  destruct (Bs4.select_one soup selector) as [el| |]; [| |congruence];
    cbn -[WebSpider.scrape_loop];
    apply IH; intros k s Hin; apply (Hok k s); right; exact Hin.
Qed.

Lemma scrape_loop_cases (soup : Bs4.Document) (items : list (str * str))
      (extracted_data : record) (w : World) :
  (exists r, WebSpider.scrape_loop soup items extracted_data w = (Return r, w)) \/
  (exists selector,
      WebSpider.scrape_loop soup items extracted_data w =
      (Raise (SelectorSyntaxError selector), w)).
Proof.
  revert extracted_data.
  induction items as [|[key selector] rest IH]; intros acc.
  - left; eexists; reflexivity.
  - cbn [WebSpider.scrape_loop]. unfold bind, Bs4.select_one_M.
    destruct (Bs4.select_one soup selector) as [el| |];
      cbn -[WebSpider.scrape_loop]; [apply IH | apply IH |].
    right; eexists; reflexivity.
Qed.

(** [scrape_website], path by path. *)
Lemma scrape_website_eq (url : str) (target_elements : dict str) (w : World) :
  WebSpider.scrape_website net url target_elements w =
  match net url with
  | Requests.Failed reason =>
      (Return [], printed w (Error_fetching_the_URL (RequestException reason)))
  | Requests.Fetched r =>
      if Requests.is_http_error (Requests.status_code r)
      then (Return [],
            printed w (Error_fetching_the_URL (HTTPError (Requests.status_code r))))
      else
        match Bs4.BeautifulSoup (Requests.text r) with
        | None => (Return [], printed w (An_error_occurred ParserRejectedMarkup))
        | Some soup =>
            match WebSpider.scrape_loop soup target_elements [] w with
            | (Return extracted, w') => (Return extracted, w')
            | (Raise e, w') =>
                (Return [],
                 printed w' (if isinstance_RequestException e
                             then Error_fetching_the_URL e
                             else An_error_occurred e))
            end
        end
  end.
Proof.
  unfold WebSpider.scrape_website, try_except, Requests.get.
  unfold bind at 1.
  destruct (net url) as [r|reason]; [|reflexivity].
  unfold ret at 1. unfold bind at 1. unfold Requests.raise_for_status.
  destruct (Requests.is_http_error (Requests.status_code r)); [reflexivity|].
  unfold ret at 1. unfold bind at 1. unfold Bs4.BeautifulSoup_M.
  destruct (Bs4.BeautifulSoup (Requests.text r)) as [soup|]; [|reflexivity].
  unfold ret at 1.
  destruct (WebSpider.scrape_loop _ target_elements [] w) as [[a|e] w'];
    [reflexivity|].
  destruct (isinstance_RequestException e); reflexivity.
Qed.

(** [extract_keywords], path by path: a page the parser rejects makes
    it raise. *)
Lemma extract_keywords_eq (url : str) (w : World) :
  WebSpider.extract_keywords net url w =
  match net url with
  | Requests.Failed reason =>
      (Return [],
       printed w (Error_fetching_the_URL_for_keywords (RequestException reason)))
  | Requests.Fetched r =>
      if Requests.is_http_error (Requests.status_code r)
      then (Return [],
            printed w (Error_fetching_the_URL_for_keywords
                         (HTTPError (Requests.status_code r))))
      else
        match Bs4.BeautifulSoup (Requests.text r) with
        | None => (Raise ParserRejectedMarkup, w)
        | Some soup =>
            (Return
               match Bs4.find_meta_named soup (py "keywords") with
               | Some meta =>
                   match Bs4.tag_get meta (py "content") with
                   | Some (c :: content) =>
                       map Str.strip (Str.split 44 (c :: content))
                   | _ => []
                   end
               | None => []
               end, w)
        end
  end.
Proof.
  unfold WebSpider.extract_keywords, try_except, Requests.get.
  unfold bind at 1.
  destruct (net url) as [r|reason]; [|reflexivity].
  unfold ret at 1. unfold bind at 1. unfold Requests.raise_for_status.
  destruct (Requests.is_http_error (Requests.status_code r)); [reflexivity|].
  unfold ret at 1. unfold bind at 1. unfold Bs4.BeautifulSoup_M.
  destruct (Bs4.BeautifulSoup (Requests.text r)) as [soup|]; [|reflexivity].
  unfold ret at 1.
  destruct (Bs4.find_meta_named _ _) as [meta|]; [|reflexivity].
  destruct (Bs4.tag_get meta _) as [[|c content]|]; reflexivity.
Qed.

(** [detect_web_technologies], path by path: the status is not looked
    at. *)
Lemma detect_web_technologies_eq (url : str) (w : World) :
  WebSpider.detect_web_technologies net url w =
  match net url with
  | Requests.Failed reason =>
      (Return [],
       printed w (Error_detecting_technologies (RequestException reason)))
  | Requests.Fetched r =>
      (Return (Props.powered_by_then_server (Requests.headers r)), w)
  end.
Proof.
  unfold WebSpider.detect_web_technologies, try_except, Requests.get, bind.
  destruct (net url) as [r|reason]; [|reflexivity].
  unfold ret, Props.powered_by_then_server.
  destruct (Requests.ci_get _ (py "X-Powered-By"));
    destruct (Requests.ci_get _ (py "Server")); reflexivity.
Qed.

End AnalyzerFacts.

Section FoldSetitem.
Context {A V : Type}.
Variable f : A -> V.

Lemma contains_false_keys (d : dict V) (k : str) :
  ~ In k (Dict.keys d) -> Dict.contains d k = false.
Proof.
  intros H. unfold Dict.contains.
  apply get_None_keys in H. rewrite H. reflexivity.
Qed.

(** Storing one value per entry of a dict, in order, rebuilds its key
    sequence. *)
Lemma fold_setitem_keys (items : dict A) (acc : dict V) :
  NoDup (Dict.keys acc ++ Dict.keys items) ->
  Dict.keys (fold_left (fun d kv => Dict.setitem d (fst kv) (f (snd kv)))
                       items acc)
  = Dict.keys acc ++ Dict.keys items.
Proof.
  revert acc; induction items as [|[k a] rest IH]; intros acc Hnd; simpl.
  - rewrite app_nil_r. reflexivity.
  - assert (Hk : ~ In k (Dict.keys acc)).
    { intros Hin. apply NoDup_remove_2 in Hnd. apply Hnd.
      apply in_or_app; left; exact Hin. }
    rewrite IH; rewrite keys_setitem, (contains_false_keys _ _ Hk).
    + rewrite <- app_assoc. reflexivity.
    + rewrite <- app_assoc. exact Hnd.
Qed.

Lemma fold_setitem_get (items : dict A) (acc : dict V) (k : str) :
  NoDup (Dict.keys items) ->
  Dict.get (fold_left (fun d kv => Dict.setitem d (fst kv) (f (snd kv)))
                      items acc) k
  = match Dict.get items k with
    | Some a => Some (f a)
    | None => Dict.get acc k
    end.
Proof.
  revert acc; induction items as [|[k0 a0] rest IH]; intros acc Hnd; simpl;
    [reflexivity|].
  inversion Hnd as [|? ? Hk0 Hrest]; subst.
  rewrite (IH _ Hrest).
  destruct (Str.eqb k0 k) eqn:E.
  - apply str_eqb_eq in E; subst k0.
    apply get_None_keys in Hk0. rewrite Hk0.
    apply get_setitem_same.
  - apply str_eqb_neq in E.
    destruct (Dict.get rest k); [reflexivity|].
    apply get_setitem_other; exact E.
Qed.

End FoldSetitem.

(** C2: when the page is fetched (no 4xx or 5xx status), the parser
    accepts it, and every selector of the rule mapping is a selector
    the backend accepts, [scrape_website] returns a record with exactly
    the keys of the rule mapping, in the same order, none extra and
    none missing; the value under each key is [None] when no element
    matches its selector, and otherwise the text of the first matching
    element without the white space at its two ends; nothing is
    printed; and the empty rule mapping gives the empty record. *)
Theorem scrape_website_record_keys :
  forall (backend : Bs4.Backend) (net : Requests.Network) (url : str)
         (target_elements : dict str) (w : Py.World)
         (resp : Requests.Response) (soup : Bs4.Document),
    Dict.wf target_elements ->
    net url = Requests.Fetched resp ->
    Requests.is_http_error (Requests.status_code resp) = false ->
    Bs4.BeautifulSoup (Requests.text resp) = Some soup ->
    (forall key selector, In (key, selector) target_elements ->
       Bs4.select_one soup selector <> Bs4.Rejected) ->
    exists extracted : Py.record,
      WebSpider.scrape_website net url target_elements w
      = (Py.Return extracted, w) /\
      Dict.keys extracted = Dict.keys target_elements /\
      (forall key, In key (Dict.keys extracted) <->
                   In key (Dict.keys target_elements)) /\
      (forall key selector,
          Dict.get target_elements key = Some selector ->
          exists v,
            Dict.get extracted key = Some v /\
            (Bs4.select_one soup selector = Bs4.NoMatch -> v = None) /\
            (forall el,
                Bs4.select_one soup selector = Bs4.Matched el ->
                exists t, v = Some t /\
                          Props.stripped_of (Bs4.tag_text el) t)) /\
      (target_elements = [] -> extracted = []).
Proof.
  intros backend net url target_elements w resp soup Hwf Hnet Hstatus Hparse
         Hsel.
  rewrite scrape_website_eq, Hnet, Hstatus, Hparse,
    (scrape_loop_eq _ _ _ _ Hsel).
  eexists. split; [reflexivity|].
  assert (Hkeys : Dict.keys
            (fold_left
               (fun d kv =>
                  Dict.setitem d (fst kv) (Props.field_value soup (snd kv)))
               target_elements ([] : Py.record))
          = Dict.keys target_elements).
  { rewrite fold_setitem_keys; [reflexivity | exact Hwf]. }
  split; [exact Hkeys|]. split; [rewrite Hkeys; reflexivity|]. split.
  - intros key selector Hget.
    exists (Props.field_value soup selector).
    split; [rewrite fold_setitem_get; [|exact Hwf]; rewrite Hget; reflexivity|].
    unfold Props.field_value. split.
    + intros ->. reflexivity.
    + intros el ->. eexists. split; [reflexivity | apply strip_spec].
  - intros ->. reflexivity.
Qed.

Lemma scrape_website_record_keys_witness :
  WebSpider.scrape_website (backend := Demo.backend) Demo.net
    (py "http://site/") [(py "title", py "title"); (py "date", py "time")]
    Demo.world0
  = (Py.Return [(py "title", Some (py "Home")); (py "date", None)],
     Demo.world0) /\
  Props.stripped_of (py " Home ") (py "Home").
Proof.
  destruct (scrape_website_record_keys Demo.backend Demo.net
              (py "http://site/")
              [(py "title", py "title"); (py "date", py "time")]
              Demo.world0
              (Requests.mkResponse 200 [(py "Server", py "nginx")] (py " Home "))
              (py " Home "))
    as [extracted [Hrun [Hkeys [_ [Hval _]]]]].
  - repeat constructor; vm_compute; intuition discriminate.
  - reflexivity.
  - reflexivity.
  - reflexivity.
  - intros key selector [[= <- <-]|[[= <- <-]|[]]]; vm_compute; discriminate.
  - assert (E : WebSpider.scrape_website (backend := Demo.backend) Demo.net
                  (py "http://site/")
                  [(py "title", py "title"); (py "date", py "time")]
                  Demo.world0
                = (Py.Return [(py "title", Some (py "Home")); (py "date", None)],
                   Demo.world0)) by reflexivity.
    split; [exact E|].
    rewrite E in Hrun. injection Hrun as <-.
    destruct (Hval (py "title") (py "title") eq_refl) as [v [Hv [_ Hm]]].
    destruct (Hm (py " Home ") eq_refl) as [t [-> Ht]].
    change (Some (Some (py "Home")) = Some (Some t)) in Hv.
    injection Hv as <-. exact Ht.
Defined.





(** C7, as stated, fails for [extract_keywords] too: on a page the
    parser rejects, it raises to its caller and prints nothing, where
    [scrape_website] on the same page returns the empty record. *)
Example extract_keywords_on_rejected_page :
  WebSpider.extract_keywords (backend := Demo.backend) Demo.net
    (py "http://site/broken") Demo.world0
  = (Py.Raise Py.ParserRejectedMarkup, Demo.world0) /\
  WebSpider.scrape_website (backend := Demo.backend) Demo.net
    (py "http://site/broken") [(py "title", py "title")] Demo.world0
  = (Py.Return [],
     Py.printed Demo.world0 (Py.An_error_occurred Py.ParserRejectedMarkup)).
Proof. split; reflexivity. Qed.


(* ===================================================================== *)
(** * The CSV export *)
(* ===================================================================== *)

Lemma existsb_eqb_In (k : str) (names : list str) :
  existsb (Str.eqb k) names = true <-> In k names.
Proof.
  rewrite existsb_exists. split.
  - intros [x [Hin E]]. apply str_eqb_eq in E; subst x. exact Hin.
  - intros Hin. exists k. split; [exact Hin | apply str_eqb_refl].
Qed.

Lemma conforms_no_extra (names : list str) (r : Py.record) :
  Props.conforms names r = true -> Props.extra_keys names r = [].
Proof.
  unfold Props.conforms, Props.extra_keys.
  induction (Dict.keys r) as [|k ks IH]; simpl; [reflexivity|].
  intros H. apply andb_true_iff in H as [Hk Hks].
  rewrite Hk. simpl. exact (IH Hks).
Qed.

Lemma not_conforms_extra (names : list str) (r : Py.record) :
  Props.conforms names r = false -> Props.extra_keys names r <> [].
Proof.
  unfold Props.conforms, Props.extra_keys.
  induction (Dict.keys r) as [|k ks IH]; simpl; [discriminate|].
  destruct (existsb (Str.eqb k) names); simpl; [exact IH | discriminate].
Qed.

Lemma conforms_self (r : Py.record) : Props.conforms (Dict.keys r) r = true.
Proof.
  unfold Props.conforms. apply forallb_forall.
  intros k Hk. apply existsb_eqb_In. exact Hk.
Qed.

Lemma get_mutate_same {V : Type} (d : dict V) (k : str) (f : V -> V) :
  Dict.get (Dict.mutate d k f) k = option_map f (Dict.get d k).
Proof.
  induction d as [|[k' v] d IH]; simpl; [reflexivity|].
  destruct (Str.eqb k' k) eqn:E; simpl; rewrite E; [reflexivity | exact IH].
Qed.

(** The text of a row depends on the texts of its fields only. *)
Lemma writerow_text_cells (fields : list (option str)) :
  Csv.writerow_text fields = Props.row_text (map Csv.cell fields).
Proof.
  assert (E : map (fun v => Csv.field (Csv.cell v))
                  (map Some (map Csv.cell fields))
              = map (fun v => Csv.field (Csv.cell v)) fields).
  { rewrite !map_map. apply map_ext. reflexivity. }
  unfold Props.row_text, Csv.writerow_text. rewrite E.
  destruct fields; reflexivity.
Qed.

(** A row can be encoded exactly when each of its cells can: quoting
    and the separators add ASCII only. *)
Lemma encodable_app (a b : str) :
  Str.encodable (a ++ b) = Str.encodable a && Str.encodable b.
Proof. apply forallb_app. Qed.

Lemma encodable_field (s : str) : Str.encodable (Csv.field s) = Str.encodable s.
Proof.
  unfold Csv.field. destruct (existsb Csv.special s); [|reflexivity].
  rewrite !encodable_app. simpl. rewrite andb_true_r.
  induction s as [|c s IH]; [reflexivity|].
  cbn [flat_map]. rewrite encodable_app, IH.
  destruct (c =? 34) eqn:E.
  - apply N.eqb_eq in E; subst c. reflexivity.
  - unfold Str.encodable. cbn [forallb]. rewrite andb_true_r. reflexivity.
Qed.

Lemma encodable_join (pieces : list str) :
  Str.encodable (Str.join [44] pieces) = forallb Str.encodable pieces.
Proof.
  induction pieces as [|p rest IH]; [reflexivity|].
  destruct rest as [|q rest].
  - simpl. rewrite andb_true_r. reflexivity.
  - change (Str.join [44] (p :: q :: rest))
      with (p ++ [44] ++ Str.join [44] (q :: rest)).
    rewrite !encodable_app, IH. reflexivity.
Qed.

Lemma encodable_row_text (cs : list str) :
  Str.encodable (Props.row_text cs) = forallb Str.encodable cs.
Proof.
  assert (J : Str.encodable
                (Str.join [44] (map (fun v => Csv.field (Csv.cell v))
                                    (map Some cs)))
              = forallb Str.encodable cs).
  { rewrite encodable_join, map_map. clear.
    induction cs as [|c cs IH]; [reflexivity|].
    cbn [map forallb]. rewrite IH. cbn [Csv.cell].
    rewrite encodable_field. reflexivity. }
  unfold Props.row_text, Csv.writerow_text. cbv zeta.
  destruct (Str.join [44] _) as [|x joined] eqn:E.
  - destruct cs as [|c cs]; [reflexivity|]. rewrite <- J. reflexivity.
  - rewrite <- J. destruct (map Some cs);
      rewrite encodable_app; simpl; rewrite andb_true_r; reflexivity.
Qed.

Lemma forallb_andb {A : Type} (p q : A -> bool) (l : list A) :
  forallb (fun x => p x && q x) l = forallb p l && forallb q l.
Proof.
  induction l as [|x l IH]; [reflexivity|]. simpl. rewrite IH.
  destruct (p x), (q x), (forallb p l); reflexivity.
Qed.

Lemma row_ok_all (names : list str) (rows : list Py.record) :
  forallb (Props.row_ok names) rows =
  forallb (Props.conforms names) rows
  && forallb (Props.encodable_cells names) rows.
Proof. apply forallb_andb. Qed.

Section DictWriterFacts.
Import Py.
Variable wr : Csv.DictWriter.

Lemma dict_to_list_cells (rowdict : record) :
  map Csv.cell
      (map (fun key => match Dict.get rowdict key with
                       | Some v => v
                       | None => Some []
                       end) (Csv.fieldnames wr))
  = Props.cells (Csv.fieldnames wr) rowdict.
Proof.
  unfold Props.cells. rewrite map_map. apply map_ext. intros key.
  destruct (Dict.get rowdict key) as [[s|]|]; reflexivity.
Qed.

(** One row: written when every key is a column and the text can be
    encoded; [ValueError] or [UnicodeEncodeError] and nothing written
    otherwise. *)
Lemma writerow_eq (rowdict : record) (w : World) :
  Csv.writerow wr rowdict w =
  if Props.row_ok (Csv.fieldnames wr) rowdict
  then (Return tt,
        wrote w (Csv.csvfile wr)
              (Props.row_text (Props.cells (Csv.fieldnames wr) rowdict)))
  else (Raise (Props.row_error (Csv.fieldnames wr) rowdict), w).
Proof.
  unfold Csv.writerow, Csv.dict_to_list, bind, Props.row_ok, Props.row_error.
  fold (Props.extra_keys (Csv.fieldnames wr) rowdict).
  destruct (Props.conforms (Csv.fieldnames wr) rowdict) eqn:E.
  - rewrite (conforms_no_extra _ _ E). unfold ret, file_write.
    rewrite writerow_text_cells, dict_to_list_cells, encodable_row_text.
    fold (Props.encodable_cells (Csv.fieldnames wr) rowdict).
    destruct (Props.encodable_cells (Csv.fieldnames wr) rowdict); reflexivity.
  - apply not_conforms_extra in E.
    destruct (Props.extra_keys (Csv.fieldnames wr) rowdict); [congruence|].
    reflexivity.
Qed.

Lemma writerows_ok (rows : list record) (w : World) :
  forallb (Props.row_ok (Csv.fieldnames wr)) rows = true ->
  Csv.writerows wr rows w =
  (Return tt,
   fold_left (fun w r => wrote w (Csv.csvfile wr)
                           (Props.row_text (Props.cells (Csv.fieldnames wr) r)))
             rows w).
Proof.
  revert w; induction rows as [|r rows IH]; intros w H; [reflexivity|].
  simpl in H. apply andb_true_iff in H as [Hr Hrows].
  cbn [Csv.writerows fold_left]. unfold bind.
  rewrite writerow_eq, Hr. apply IH; exact Hrows.
Qed.

(** The rows before the first one that cannot be written are written,
    then its error is raised. *)
Lemma writerows_raise (before : list record) (bad : record)
      (after : list record) (w : World) :
  forallb (Props.row_ok (Csv.fieldnames wr)) before = true ->
  Props.row_ok (Csv.fieldnames wr) bad = false ->
  Csv.writerows wr (before ++ bad :: after) w =
  (Raise (Props.row_error (Csv.fieldnames wr) bad),
   fold_left (fun w r => wrote w (Csv.csvfile wr)
                           (Props.row_text (Props.cells (Csv.fieldnames wr) r)))
             before w).
Proof.
  revert w; induction before as [|r rows IH]; intros w H Hbad.
  - cbn [app Csv.writerows fold_left]. unfold bind.
    rewrite writerow_eq, Hbad. reflexivity.
  - simpl in H. apply andb_true_iff in H as [Hr Hrows].
    cbn [app Csv.writerows fold_left]. unfold bind.
    rewrite writerow_eq, Hr. apply IH; assumption.
Qed.

(** What a run of writes leaves in the file and on standard output. *)
Lemma wrote_rows_file (texts : list str) (w : World) :
  Dict.get (files (fold_left (fun w t => wrote w (Csv.csvfile wr) t) texts w))
           (Csv.csvfile wr)
  = option_map (fun old => old ++ List.concat texts)
               (Dict.get (files w) (Csv.csvfile wr)) /\
  stdout (fold_left (fun w t => wrote w (Csv.csvfile wr) t) texts w) = stdout w.
Proof.
  revert w; induction texts as [|t texts IH]; intros w; simpl.
  - split; [|reflexivity].
    destruct (Dict.get (files w) (Csv.csvfile wr)); simpl;
      [rewrite app_nil_r|]; reflexivity.
  - destruct (IH (wrote w (Csv.csvfile wr) t)) as [Hf Hs].
    rewrite Hf, Hs. split; [|reflexivity].
    simpl. rewrite get_mutate_same.
    destruct (Dict.get (files w) (Csv.csvfile wr)); simpl;
      [rewrite <- app_assoc|]; reflexivity.
Qed.

End DictWriterFacts.

Lemma fold_left_map_arg {A B C : Type} (f : A -> C -> A) (g : B -> C)
      (l : list B) (a : A) :
  fold_left (fun x b => f x (g b)) l a = fold_left f (map g l) a.
Proof. revert a; induction l as [|b l IH]; intros a; simpl; auto. Qed.

Lemma map_fst_combine_diag {A : Type} (l : list A) : map fst (combine l l) = l.
Proof. induction l as [|x l IH]; simpl; [|rewrite IH]; reflexivity. Qed.

Section HeaderFacts.
Import Py.

Lemma fold_diagonal (items : list (str * str)) (acc : record) :
  (forall kv, In kv items -> fst kv = snd kv) ->
  Props.diagonal acc ->
  Props.diagonal (fold_left (fun d kv => Dict.setitem d (fst kv) (Some (snd kv)))
                      items acc) /\
  forall k,
    In k (Dict.keys (fold_left (fun d kv => Dict.setitem d (fst kv) (Some (snd kv)))
                               items acc))
    <-> In k (Dict.keys acc) \/ In k (map fst items).
Proof.
  revert acc; induction items as [|[k0 v0] rest IH]; intros acc Hd Hacc.
  - simpl. split; [exact Hacc | tauto].
  - cbn [fold_left map fst snd].
    pose proof (Hd (k0, v0) (or_introl eq_refl)) as E. simpl in E. subst v0.
    destruct (IH (Dict.setitem acc k0 (Some k0))) as [Hdiag Hkeys].
    + intros kv Hin. apply Hd. right; exact Hin.
    + intros k v. destruct (list_eq_dec N.eq_dec k0 k) as [->|Hne].
      * rewrite get_setitem_same. congruence.
      * rewrite get_setitem_other by exact Hne. apply Hacc.
    + split; [exact Hdiag|]. intros k. rewrite Hkeys, keys_setitem.
      unfold Dict.contains.
      destruct (Dict.get acc k0) as [v|] eqn:Hget.
      * apply get_Some_keys in Hget. simpl. split; [tauto|].
        intros [H|[<-|H]]; auto.
      * rewrite in_app_iff. simpl. tauto.
Qed.

(** The header row: every column name, under its own name. *)
Lemma header_dict_row (names : list str) :
  Props.conforms names (Csv.header_dict names) = true /\
  Props.cells names (Csv.header_dict names) = names.
Proof.
  unfold Csv.header_dict.
  destruct (fold_diagonal (combine names names) []) as [Hdiag Hkeys].
  - clear. induction names as [|x l IH]; simpl; [tauto|].
    intros kv [<-|H]; [reflexivity | apply IH; exact H].
  - intros k v H. discriminate H.
  - rewrite map_fst_combine_diag in Hkeys. split.
    + apply forallb_forall. intros k Hk. apply existsb_eqb_In.
      apply Hkeys in Hk. destruct Hk as [[]|Hk]. exact Hk.
    + unfold Props.cells. rewrite <- (map_id names) at 2.
      apply map_ext_in. intros key Hin.
      destruct (Dict.get _ key) as [v|] eqn:Hget.
      * rewrite (Hdiag key v Hget). reflexivity.
      * apply get_None_keys in Hget. exfalso. apply Hget.
        apply Hkeys. right; exact Hin.
Qed.

(** The header row can be written exactly when every column name can
    be encoded. *)
Lemma header_row_ok (names : list str) :
  Props.row_ok names (Csv.header_dict names) = forallb Str.encodable names /\
  Props.row_error names (Csv.header_dict names)
  = UnicodeEncodeError (Props.row_text names).
Proof.
  unfold Props.row_ok, Props.row_error, Props.encodable_cells.
  destruct (header_dict_row names) as [-> ->]. split; reflexivity.
Qed.

(** [save_to_csv] on a file that cannot be opened. *)
Lemma save_to_csv_unopened (first : record) (rest : list record)
      (filename : str) (w : World) :
  writable w filename = false ->
  WebSpider.save_to_csv (first :: rest) filename w
  = (Raise (OSError filename), w).
Proof.
  intros Hw. unfold WebSpider.save_to_csv.
  unfold bind at 1. unfold open_w. rewrite Hw. reflexivity.
Qed.

(** [save_to_csv] up to the rows: the file is opened, then the header
    and the rows are written, as far as the writer gets. *)
Lemma save_to_csv_eq (first : record) (rest : list record) (filename : str)
      (w : World) :
  writable w filename = true ->
  WebSpider.save_to_csv (first :: rest) filename w =
  if forallb Str.encodable (Dict.keys first)
  then match Csv.writerows (Csv.mkDictWriter filename (Dict.keys first))
                           (first :: rest)
                           (wrote (opened w filename) filename
                                  (Props.row_text (Dict.keys first))) with
       | (Return _, w') => (Return tt, printed w' (Data_saved_to filename))
       | (Raise e, w') => (Raise e, w')
       end
  else (Raise (UnicodeEncodeError (Props.row_text (Dict.keys first))),
        opened w filename).
Proof.
  intros Hw. unfold WebSpider.save_to_csv.
  unfold bind at 1. unfold open_w. rewrite Hw.
  unfold bind at 1. unfold Csv.writeheader. rewrite writerow_eq.
  cbn [Csv.fieldnames Csv.csvfile].
  destruct (header_row_ok (Dict.keys first)) as [-> ->].
  destruct (header_dict_row (Dict.keys first)) as [_ ->].
  destruct (forallb Str.encodable (Dict.keys first)); [|reflexivity].
  unfold bind at 1.
  destruct (Csv.writerows _ _ _) as [[u|e] w']; [destruct u|]; reflexivity.
Qed.

(** Some record has a key that is no column: the records split at the
    first such record. *)
Lemma first_nonconforming (names : list str) (rows : list record) :
  (exists r k, In r rows /\ In k (Dict.keys r) /\ ~ In k names) ->
  exists before bad after,
    rows = before ++ bad :: after /\
    forallb (Props.conforms names) before = true /\
    Props.conforms names bad = false.
Proof.
  induction rows as [|r rows IH]; intros [r0 [k [Hin [Hk Hnot]]]];
    [destruct Hin|].
  destruct (Props.conforms names r) eqn:E.
  - destruct Hin as [<-|Hin].
    + exfalso. apply Hnot. apply existsb_eqb_In.
      unfold Props.conforms in E.
      rewrite forallb_forall in E. apply E; exact Hk.
    + destruct IH as [before [bad [after [-> [Hb Hbad]]]]];
        [exists r0, k; auto|].
      exists (r :: before), bad, after. simpl. rewrite E, Hb. auto.
  - exists [], r, rows. auto.
Qed.

End HeaderFacts.

Section SaveToCsvFacts.
Import Py.
Variables (first : record) (filename : str) (w : World).
Hypothesis Hwritable : writable w filename = true.

(** The file and the output after the header and the rows [rows] have
    been written to the freshly opened file. *)
Lemma written_rows (rows : list record) :
  let w' :=
    fold_left (fun w r => wrote w filename
                            (Props.row_text (Props.cells (Dict.keys first) r)))
              rows
              (wrote (opened w filename) filename
                     (Props.row_text (Dict.keys first))) in
  Dict.get (files w') filename =
    Some (List.concat
            (map Props.row_text
                 (Dict.keys first :: map (Props.cells (Dict.keys first)) rows)))
  /\ stdout w' = stdout w.
Proof.
  cbv zeta.
  rewrite (fold_left_map_arg (fun w t => wrote w filename t)
             (fun r => Props.row_text (Props.cells (Dict.keys first) r))).
  destruct (wrote_rows_file (Csv.mkDictWriter filename (Dict.keys first))
              (map (fun r => Props.row_text (Props.cells (Dict.keys first) r)) rows)
              (wrote (opened w filename) filename
                     (Props.row_text (Dict.keys first)))) as [Hf Hs].
  cbn [Csv.csvfile] in Hf, Hs. rewrite Hf, Hs. split; [|reflexivity].
  simpl files. rewrite get_mutate_same, get_setitem_same. simpl.
  rewrite map_map. reflexivity.
Qed.

Lemma save_to_csv_ok (rest : list record) :
  forallb Str.encodable (Dict.keys first) = true ->
  forallb (Props.row_ok (Dict.keys first)) (first :: rest) = true ->
  exists w',
    WebSpider.save_to_csv (first :: rest) filename w = (Return tt, w') /\
    Dict.get (files w') filename =
      Some (List.concat
              (map Props.row_text
                   (Dict.keys first
                    :: map (Props.cells (Dict.keys first)) (first :: rest)))) /\
    stdout w' = stdout w ++ [Data_saved_to filename].
Proof.
  intros Hkeys Hrows. rewrite (save_to_csv_eq _ _ _ _ Hwritable), Hkeys.
  rewrite writerows_ok by exact Hrows.
  cbn [Csv.csvfile Csv.fieldnames].
  destruct (written_rows (first :: rest)) as [Hf Hs]. cbv zeta in Hf, Hs.
  eexists. split; [reflexivity|].
  cbn [printed files stdout]. rewrite Hf, Hs. split; reflexivity.
Qed.

(** The header is written, then the rows up to the first one that
    cannot be. *)
Lemma save_to_csv_raise (rows before : list record) (bad : record)
      (after : list record) :
  forallb Str.encodable (Dict.keys first) = true ->
  first :: rows = before ++ bad :: after ->
  forallb (Props.row_ok (Dict.keys first)) before = true ->
  Props.row_ok (Dict.keys first) bad = false ->
  exists w',
    WebSpider.save_to_csv (first :: rows) filename w =
    (Raise (Props.row_error (Dict.keys first) bad), w') /\
    Dict.get (files w') filename =
      Some (List.concat
              (map Props.row_text
                   (Dict.keys first
                    :: map (Props.cells (Dict.keys first)) before))) /\
    stdout w' = stdout w.
Proof.
  intros Hkeys Hsplit Hbefore Hbad.
  rewrite (save_to_csv_eq _ _ _ _ Hwritable), Hkeys, Hsplit.
  rewrite (writerows_raise _ before bad after) by assumption.
  cbn [Csv.csvfile Csv.fieldnames].
  destruct (written_rows before) as [Hf Hs]. cbv zeta in Hf, Hs.
  eexists. split; [reflexivity|].
  rewrite Hf, Hs. split; reflexivity.
Qed.

(** A column name that cannot be encoded: the file is opened, and
    left empty. *)
Lemma save_to_csv_header_raise (rest : list record) :
  forallb Str.encodable (Dict.keys first) = false ->
  WebSpider.save_to_csv (first :: rest) filename w =
  (Raise (UnicodeEncodeError (Props.row_text (Dict.keys first))),
   opened w filename).
Proof.
  intros Hkeys. rewrite (save_to_csv_eq _ _ _ _ Hwritable), Hkeys.
  reflexivity.
Qed.

End SaveToCsvFacts.

(** The rows of the records up to the first one with a key that is no
    column can be written, when every cell of every record can be
    encoded. *)
Lemma row_ok_before (names : list str) (rows before : list Py.record)
      (bad : Py.record) (after : list Py.record) :
  forallb (Props.encodable_cells names) rows = true ->
  rows = before ++ bad :: after ->
  forallb (Props.conforms names) before = true ->
  forallb (Props.row_ok names) before = true.
Proof.
  intros Henc -> Hconf. rewrite forallb_app in Henc.
  apply andb_true_iff in Henc as [Henc _].
  rewrite row_ok_all, Hconf, Henc. reflexivity.
Qed.

(** A record with a key outside the first record's keys makes
    [save_to_csv] raise, in every world, before its closing message. *)
Lemma save_to_csv_incomplete (first : Py.record) (rest : list Py.record)
      (filename : str) (w : Py.World) :
  forallb (Props.conforms (Dict.keys first)) rest = false ->
  exists e w',
    WebSpider.save_to_csv (first :: rest) filename w = (Py.Raise e, w') /\
    Py.stdout w' = Py.stdout w.
Proof.
  intros Hrest.
  destruct (Py.writable w filename) eqn:Hw.
  - destruct (forallb Str.encodable (Dict.keys first)) eqn:Hkeys.
    + assert (Hrows : forallb (Props.row_ok (Dict.keys first)) (first :: rest)
                      = false).
      { rewrite row_ok_all. cbn [forallb].
        rewrite Hrest, andb_false_r. reflexivity. }
      destruct (first_false _ _ Hrows) as [before [bad [after [E [Hb Hbad]]]]].
      destruct (save_to_csv_raise first filename w Hw rest before bad after
                  Hkeys E Hb Hbad) as [w' [Hrun [_ Hout]]].
      eauto.
    + rewrite (save_to_csv_header_raise first filename w Hw rest Hkeys).
      eexists; eexists. split; reflexivity.
  - rewrite (save_to_csv_unopened first rest filename w Hw).
    eexists; eexists. split; reflexivity.
Qed.



(** C9: when a record after the first has a key that is not a key of
    the first record, [save_to_csv] raises instead of completing, and
    its closing message is not printed. When moreover the file can be
    opened and the keys and texts can be encoded to UTF-8, the error is
    the [ValueError] of the first record with such a key: the records
    split at that record, the error names its extra keys, and the file
    is left with the header and the rows of the records before it only.
    The records [a: 3], [a: 3], [a: 1, b: 2], [a: 3] leave the lines
    [a], [3] and [3] in the file. *)
Theorem save_to_csv_extra_key_raises :
  (forall (first : Py.record) (rest : list Py.record) (filename : str)
          (w : Py.World),
      (exists r k, In r rest /\ In k (Dict.keys r) /\ ~ In k (Dict.keys first)) ->
      (exists e w',
          WebSpider.save_to_csv (first :: rest) filename w = (Py.Raise e, w') /\
          Py.stdout w' = Py.stdout w) /\
      (Py.writable w filename = true ->
       forallb Str.encodable (Dict.keys first) = true ->
       forallb (Props.encodable_cells (Dict.keys first)) (first :: rest)
       = true ->
       exists before bad after w',
         rest = before ++ bad :: after /\
         forallb (Props.conforms (Dict.keys first)) before = true /\
         Props.extra_keys (Dict.keys first) bad <> [] /\
         WebSpider.save_to_csv (first :: rest) filename w =
         (Py.Raise (Py.ValueError (Props.extra_keys (Dict.keys first) bad)),
          w') /\
         Dict.get (Py.files w') filename =
           Some (List.concat
                   (map Props.row_text
                        (Dict.keys first
                         :: map (Props.cells (Dict.keys first))
                                (first :: before)))) /\
         Py.stdout w' = Py.stdout w)) /\
  (forall (filename : str) (w : Py.World),
      Py.writable w filename = true ->
      exists w',
        WebSpider.save_to_csv
          [Props.only_a; Props.only_a; Props.ab; Props.only_a] filename w
        = (Py.Raise (Py.ValueError [py "b"]), w') /\
        Dict.get (Py.files w') filename =
          Some (py "a" ++ [13; 10] ++ py "3" ++ [13; 10] ++ py "3" ++ [13; 10]) /\
        Py.stdout w' = Py.stdout w).
Proof.
  split.
  - intros first rest filename w Hextra.
    destruct (first_nonconforming _ _ Hextra)
      as [before [bad [after [E [Hbefore Hbad]]]]].
    assert (Hbadrow : Props.row_ok (Dict.keys first) bad = false)
      by (unfold Props.row_ok; rewrite Hbad; reflexivity).
    split.
    + apply save_to_csv_incomplete. rewrite E, forallb_app. cbn [forallb].
      rewrite Hbad, andb_false_r. reflexivity.
    + intros Hw Hkeys Hcells. cbn [forallb] in Hcells.
      apply andb_true_iff in Hcells as [Hfirst Hrest].
      destruct (save_to_csv_raise first filename w Hw rest (first :: before)
                  bad after Hkeys) as [w' [Hrun [Hfile Hout]]].
      * rewrite E. reflexivity.
      * cbn [forallb]. unfold Props.row_ok at 1.
        rewrite conforms_self, Hfirst.
        exact (row_ok_before _ _ _ _ _ Hrest E Hbefore).
      * exact Hbadrow.
      * unfold Props.row_error in Hrun. rewrite Hbad in Hrun.
        exists before, bad, after, w'.
        repeat split; try assumption. apply not_conforms_extra; exact Hbad.
  - intros filename w Hw.
    destruct (save_to_csv_raise Props.only_a filename w Hw
                [Props.only_a; Props.ab; Props.only_a]
                [Props.only_a; Props.only_a] Props.ab [Props.only_a]
                eq_refl eq_refl eq_refl eq_refl) as [w' [Hrun [Hfile Hout]]].
    exists w'. split; [exact Hrun|]. split; [|exact Hout].
    rewrite Hfile. reflexivity.
Qed.

Lemma save_to_csv_extra_key_raises_witness :
  (exists before bad after w',
      [Props.only_a; Props.ab; Props.only_a] = before ++ bad :: after /\
      forallb (Props.conforms (Dict.keys Props.only_a)) before = true /\
      Props.extra_keys (Dict.keys Props.only_a) bad <> [] /\
      WebSpider.save_to_csv
        (Props.only_a :: [Props.only_a; Props.ab; Props.only_a])
        (py "scraped_data.csv") Demo.world0 =
      (Py.Raise (Py.ValueError (Props.extra_keys (Dict.keys Props.only_a) bad)),
       w') /\
      Dict.get (Py.files w') (py "scraped_data.csv") =
        Some (List.concat
                (map Props.row_text
                     (Dict.keys Props.only_a
                      :: map (Props.cells (Dict.keys Props.only_a))
                             (Props.only_a :: before)))) /\
      Py.stdout w' = Py.stdout Demo.world0) /\
  (exists w',
      WebSpider.save_to_csv
        [Props.only_a; Props.only_a; Props.ab; Props.only_a]
        (py "scraped_data.csv") Demo.world0
      = (Py.Raise (Py.ValueError [py "b"]), w') /\
      Dict.get (Py.files w') (py "scraped_data.csv") =
        Some (py "a" ++ [13; 10] ++ py "3" ++ [13; 10] ++ py "3" ++ [13; 10]) /\
      Py.stdout w' = []).
Proof.
  split.
  - refine (proj2 (proj1 save_to_csv_extra_key_raises Props.only_a
                    [Props.only_a; Props.ab; Props.only_a]
                    (py "scraped_data.csv") Demo.world0 _)
                  eq_refl eq_refl eq_refl).
    exists Props.ab, (py "b"). split; [right; left; reflexivity|].
    split; [right; left; reflexivity|].
    vm_compute. intuition discriminate.
  - apply (proj2 save_to_csv_extra_key_raises (py "scraped_data.csv")
             Demo.world0).
    reflexivity.
Defined.

(* ===================================================================== *)
(** * More on strings: trimming, [partition], [split] *)
(* ===================================================================== *)


Lemma partition_absent (sep : N) (s : str) :
  ~ In sep s -> Str.partition sep s = (s, [], []).
Proof.
  induction s as [|c s IH]; intros H; [reflexivity|].
  simpl. destruct (N.eqb_spec c sep) as [->|Hne].
  - exfalso; apply H; left; reflexivity.
  - rewrite IH; [reflexivity|]. intros Hin; apply H; right; exact Hin.
Qed.

(** [split] and [join] are inverse; the pieces hold no separator and
    there is one more piece than separators. *)
Lemma split_pieces (sep : N) (s : str) :
  Str.join [sep] (Str.split sep s) = s /\
  Forall (fun piece => ~ In sep piece) (Str.split sep s) /\
  List.length (Str.split sep s) = S (count_occ N.eq_dec s sep).
Proof.
  induction s as [|c s IH]; simpl.
  - repeat split. constructor; [tauto | constructor].
  - destruct IH as [Hj [Hp Hl]].
    destruct (N.eqb_spec c sep) as [->|Hne].
    + destruct (N.eq_dec sep sep) as [_|n]; [|congruence].
      repeat split.
      * simpl. destruct (Str.split sep s) as [|p ps] eqn:E;
          [simpl in Hl; discriminate|].
        simpl in Hj |- *. rewrite Hj. reflexivity.
      * constructor; [tauto | exact Hp].
      * simpl. rewrite Hl. reflexivity.
    + destruct (N.eq_dec c sep) as [e|_]; [congruence|].
      destruct (Str.split sep s) as [|p ps] eqn:E; [simpl in Hl; discriminate|].
      repeat split.
      * simpl in Hj |- *. destruct ps; simpl in *; rewrite <- Hj; reflexivity.
      * inversion Hp; subst. constructor; [|assumption].
        intros [H|H]; congruence.
      * exact Hl.
Qed.

(* ===================================================================== *)
(** * More on dicts *)
(* ===================================================================== *)

Section MoreDictLemmas.
Context {V : Type}.
Implicit Types (d : dict V) (k : str).

Lemma get_app d d' k :
  Dict.get (d ++ d') k =
  match Dict.get d k with Some v => Some v | None => Dict.get d' k end.
Proof.
  induction d as [|[k' v] d IH]; simpl; [reflexivity|].
  destruct (Str.eqb k' k); [reflexivity | exact IH].
Qed.

Lemma get_mutate d k k' f :
  Dict.get (Dict.mutate d k f) k' =
  if Str.eqb k k' then option_map f (Dict.get d k') else Dict.get d k'.
Proof.
  induction d as [|[k0 v] d IH]; simpl.
  - destruct (Str.eqb k k'); reflexivity.
  - destruct (Str.eqb k0 k) eqn:E0; simpl.
    + apply str_eqb_eq in E0; subst k0.
      destruct (Str.eqb k k'); reflexivity.
    + destruct (Str.eqb k0 k') eqn:E1.
      * destruct (Str.eqb k k') eqn:E2; [|reflexivity].
        apply str_eqb_eq in E1, E2. subst. rewrite str_eqb_refl in E0.
        discriminate.
      * exact IH.
Qed.

Lemma get_setdefault d k k' v :
  Dict.get (Dict.setdefault d k v) k' =
  match Dict.get d k' with
  | Some x => Some x
  | None => if Str.eqb k k' then Some v else None
  end.
Proof.
  unfold Dict.setdefault, Dict.contains.
  destruct (Dict.get d k) as [x|] eqn:E.
  - destruct (Dict.get d k') eqn:E'; [reflexivity|].
    destruct (Str.eqb k k') eqn:Ek; [|reflexivity].
    apply str_eqb_eq in Ek; subst. congruence.
  - rewrite get_app. simpl. destruct (Dict.get d k'); reflexivity.
Qed.



Lemma wf_setitem d k v : Dict.wf d -> Dict.wf (Dict.setitem d k v).
Proof.
  unfold Dict.wf. rewrite keys_setitem. unfold Dict.contains.
  destruct (Dict.get d k) eqn:E; [auto|]. intros H.
  apply get_None_keys in E.
  apply NoDup_rev in H. rewrite <- (rev_involutive (Dict.keys d ++ [k])).
  apply NoDup_rev. rewrite rev_app_distr. simpl.
  constructor; [|exact H]. rewrite <- in_rev. exact E.
Qed.

End MoreDictLemmas.

(* ===================================================================== *)
(** * More on the robots.txt parser *)
(* ===================================================================== *)

Lemma rules_loop_entry (line : str) (rest : list str) (rules : dict (list str)) :
  WebSpider.rules_loop (line :: rest) rules =
  match Descr.entry_of_line line with
  | Some (k, v) =>
      WebSpider.rules_loop rest
        (Dict.mutate (Dict.setdefault rules k []) k (fun l => l ++ [v]))
  | None => WebSpider.rules_loop rest rules
  end.
Proof.
  unfold Descr.entry_of_line.
  destruct (Props.has_directive_prefix (Str.strip line)) eqn:E.
  - rewrite (rules_loop_take _ _ _ E). reflexivity.
  - apply rules_loop_skip; exact E.
Qed.

(** Storing one value: the list under [k0] gets [v] at its end (the
    list is created when the key is new), every other key is as before. *)
Lemma get_rules_step (rules : dict (list str)) (k0 v k : str) :
  Dict.get (Dict.mutate (Dict.setdefault rules k0 []) k0 (fun l => l ++ [v])) k =
  if Str.eqb k0 k
  then Some (match Dict.get rules k with Some l => l | None => [] end ++ [v])
  else Dict.get rules k.
Proof.
  rewrite get_mutate, get_setdefault.
  destruct (Str.eqb k0 k) eqn:E.
  - destruct (Dict.get rules k); reflexivity.
  - destruct (Dict.get rules k); reflexivity.
Qed.

Lemma rules_loop_get (lines : list str) (rules : dict (list str)) (k : str) :
  Dict.get (WebSpider.rules_loop lines rules) k =
  match Descr.values_for k (Descr.entries lines) with
  | [] => Dict.get rules k
  | vs => Some (match Dict.get rules k with Some l => l | None => [] end ++ vs)
  end.
Proof.
  revert rules; induction lines as [|line rest IH]; intros rules;
    [reflexivity|].
  rewrite rules_loop_entry. cbn [Descr.entries].
  destruct (Descr.entry_of_line line) as [[k0 v]|]; [|apply IH].
  rewrite IH, get_rules_step. unfold Descr.values_for.
  cbn [filter fst snd map]. destruct (Str.eqb k0 k) eqn:E.
  - cbn [map snd].
    destruct (map snd (filter _ (Descr.entries rest))) as [|v' vs];
      [reflexivity|]. rewrite <- app_assoc. reflexivity.
  - reflexivity.
Qed.






(** X1: for a robots.txt fetched with status 200, looking a key up in
    the policy of [check_robots_txt] gives the values of the recognised
    lines with that key, in the order of the lines, and nothing when no
    recognised line has that key. *)
Theorem robots_policy_lookup :
  forall (net : Requests.Network) (url : str) (w : Py.World)
         (resp : Requests.Response),
    net (WebSpider.robots_url url) = Requests.Fetched resp ->
    Requests.status_code resp = 200%Z ->
    exists policy,
      WebSpider.check_robots_txt net url w = (Py.Return policy, w) /\
      forall k,
        Dict.get policy k =
        match Descr.values_for k
                (Descr.entries (Str.splitlines (Requests.text resp))) with
        | [] => None
        | vs => Some vs
        end.
Proof.
  intros net url w resp Hnet Hstatus.
  rewrite check_robots_txt_eq, Hnet, Hstatus. simpl Z.eqb. cbv iota.
  eexists. split; [reflexivity|]. intros k. rewrite rules_loop_get.
  reflexivity.
Qed.

Lemma robots_policy_lookup_witness :
  exists policy,
    WebSpider.check_robots_txt Demo.net (py "http://site/") Demo.world0
    = (Py.Return policy, Demo.world0) /\
    Dict.get policy (py "Disallow") = Some [py "/admin"; py "/tmp"] /\
    Dict.get policy (py "Allow") = None.
Proof.
  destruct (robots_policy_lookup Demo.net (py "http://site/") Demo.world0
              (Requests.mkResponse 200 [] Demo.robots_body) eq_refl eq_refl)
    as [policy [Hrun Hget]].
  exists policy. split; [exact Hrun|].
  split; rewrite Hget; reflexivity.
Defined.




(** X4: a recognised line that holds no colon is stored under its whole
    trimmed text as key, with the empty string as value. *)
Theorem robots_line_without_colon :
  forall (line : str) (rest : list str) (rules : dict (list str)),
    Props.has_directive_prefix (Str.strip line) = true ->
    ~ In 58 (Str.strip line) ->
    WebSpider.rules_loop (line :: rest) rules =
    WebSpider.rules_loop rest
      (Dict.mutate (Dict.setdefault rules (Str.strip line) [])
                   (Str.strip line) (fun l => l ++ [[]])).
Proof.
  intros line rest rules Hrec Hcolon.
  rewrite (rules_loop_take _ _ _ Hrec). cbv zeta.
  rewrite (partition_absent _ _ Hcolon). simpl fst. simpl snd.
  rewrite (strip_idem line). reflexivity.
Qed.

Lemma robots_line_without_colon_witness :
  WebSpider.rules_loop [py " Disallow /private "] []
  = [(py "Disallow /private", [[]])].
Proof.
  rewrite (robots_line_without_colon (py " Disallow /private ") [] []).
  - reflexivity.
  - reflexivity.
  - vm_compute. intuition discriminate.
Defined.


(* ===================================================================== *)
(** * More on the keyword and technology analyzers *)
(* ===================================================================== *)

(** X5: on a fetched page (no 4xx or 5xx status) whose [keywords] meta
    tag has a non-empty [content], [extract_keywords] prints nothing and
    returns the trimmed comma-separated segments of the content, in
    order: the segments joined by commas are the content, no segment
    holds a comma, there is one keyword more than there are commas
    (empty segments are kept), and every keyword is trimmed. Without
    the tag, without the attribute, or with an empty content, it
    returns the empty list and prints nothing. *)
Theorem extract_keywords_segments :
  forall (backend : Bs4.Backend) (net : Requests.Network) (url : str)
         (w : Py.World) (resp : Requests.Response) (soup : Bs4.Document),
    net url = Requests.Fetched resp ->
    Requests.is_http_error (Requests.status_code resp) = false ->
    Bs4.BeautifulSoup (Requests.text resp) = Some soup ->
    (forall meta content,
        Bs4.find_meta_named soup (py "keywords") = Some meta ->
        Bs4.tag_get meta (py "content") = Some content ->
        content <> [] ->
        exists segments,
          WebSpider.extract_keywords net url w
          = (Py.Return (map Str.strip segments), w) /\
          Str.join (py ",") segments = content /\
          Forall (fun piece => ~ In 44 piece) segments /\
          List.length (map Str.strip segments)
          = S (count_occ N.eq_dec content 44) /\
          Forall Descr.trimmed (map Str.strip segments) /\
          Forall2 Props.stripped_of segments (map Str.strip segments)) /\
    ((Bs4.find_meta_named soup (py "keywords") = None \/
      exists meta,
        Bs4.find_meta_named soup (py "keywords") = Some meta /\
        (Bs4.tag_get meta (py "content") = None \/
         Bs4.tag_get meta (py "content") = Some [])) ->
     WebSpider.extract_keywords net url w = (Py.Return [], w)).
Proof.
  intros backend net url w resp soup Hnet Hstatus Hsoup. split.
  - intros meta content Hmeta Hcontent Hne.
    destruct (split_pieces 44 content) as [Hj [Hp Hl]].
    exists (Str.split 44 content).
    rewrite extract_keywords_eq, Hnet, Hstatus, Hsoup, Hmeta, Hcontent.
    destruct content as [|c content]; [congruence|].
    split; [reflexivity|]. split; [exact Hj|]. split; [exact Hp|].
    split; [rewrite length_map; exact Hl|]. split.
    + apply Forall_map. apply Forall_forall. intros s _. apply strip_idem.
    + generalize (Str.split 44 (c :: content)). clear. intros l.
      induction l as [|s l IH]; simpl; constructor;
        [apply strip_spec | exact IH].
  - intros H. rewrite extract_keywords_eq, Hnet, Hstatus, Hsoup.
    destruct H as [->|[meta [-> [->| ->]]]]; reflexivity.
Qed.

Lemma extract_keywords_segments_witness :
  WebSpider.extract_keywords (backend := DemoMeta.meta_backend)
    (Props.serving (py "a, b ,c")) (py "http://site/") Demo.world0
  = (Py.Return [py "a"; py "b"; py "c"], Demo.world0) /\
  WebSpider.extract_keywords (backend := Demo.backend) Demo.net
    (py "http://site/") Demo.world0 = (Py.Return [], Demo.world0).
Proof.
  split.
  - destruct (proj1 (extract_keywords_segments DemoMeta.meta_backend
                       (Props.serving (py "a, b ,c")) (py "http://site/")
                       Demo.world0
                       (Requests.mkResponse 200 [] (py "a, b ,c"))
                       (py "a, b ,c") eq_refl eq_refl eq_refl)
                    (py "a, b ,c") (py "a, b ,c") eq_refl eq_refl)
      as [segments [Hrun _]].
    + discriminate.
    + rewrite Hrun. f_equal.
      assert (E : fst (WebSpider.extract_keywords (backend := DemoMeta.meta_backend)
                         (Props.serving (py "a, b ,c")) (py "http://site/")
                         Demo.world0)
                  = Py.Return [py "a"; py "b"; py "c"]) by reflexivity.
      rewrite Hrun in E. exact E.
  - apply (proj2 (extract_keywords_segments Demo.backend Demo.net
                    (py "http://site/") Demo.world0
                    (Requests.mkResponse 200 [(py "Server", py "nginx")]
                                         (py " Home "))
                    (py " Home ") eq_refl eq_refl eq_refl)).
    left. reflexivity.
Defined.

(** Looking a header up finds a value exactly when some header has that
    name up to letter case, and the value found belongs to such a
    header. *)
Lemma ci_get_spec (h : Requests.CaseInsensitiveDict) (name : str) :
  (forall v, Requests.ci_get h name = Some v ->
             exists k, In (k, v) h /\ Requests.lower k = Requests.lower name) /\
  (Requests.ci_get h name = None <->
   forall k v, In (k, v) h -> Requests.lower k <> Requests.lower name).
Proof.
  induction h as [|[k0 v0] h [IH1 IH2]]; simpl.
  - split; [discriminate|]. split; [intros _ k v [] | reflexivity].
  - destruct (Str.eqb (Requests.lower k0) (Requests.lower name)) eqn:E.
    + apply str_eqb_eq in E. split.
      * intros v [= <-]. exists k0. auto.
      * split; [discriminate|]. intros H. exfalso.
        apply (H k0 v0); auto.
    + apply str_eqb_neq in E. split.
      * intros v Hv. destruct (IH1 v Hv) as [k [Hin Hk]]. exists k. auto.
      * rewrite IH2. split.
        -- intros H k v [[= <- <-]|Hin]; [exact E | apply (H k v Hin)].
        -- intros H k v Hin. apply (H k v). right; exact Hin.
Qed.

(** X6: on every response, whatever its status and body,
    [detect_web_technologies] prints nothing and returns at most two
    strings, each the value of a response header named [X-Powered-By]
    or [Server] up to letter case; it reports nothing exactly when the
    response has neither header. *)
Theorem detect_web_technologies_headers :
  forall (net : Requests.Network) (url : str) (w : Py.World)
         (resp : Requests.Response),
    net url = Requests.Fetched resp ->
    exists technologies,
      WebSpider.detect_web_technologies net url w
      = (Py.Return technologies, w) /\
      (List.length technologies <= 2)%nat /\
      (forall v, In v technologies ->
         exists k, In (k, v) (Requests.headers resp) /\
                   Descr.fingerprint_header k) /\
      (technologies = [] <->
       forall k v, In (k, v) (Requests.headers resp) ->
                   ~ Descr.fingerprint_header k).
Proof.
  intros net url w resp Hnet.
  rewrite detect_web_technologies_eq, Hnet.
  eexists. split; [reflexivity|].
  unfold Props.powered_by_then_server, Descr.fingerprint_header.
  destruct (ci_get_spec (Requests.headers resp) (py "X-Powered-By"))
    as [P1 P2].
  destruct (ci_get_spec (Requests.headers resp) (py "Server")) as [S1 S2].
  destruct (Requests.ci_get (Requests.headers resp) (py "X-Powered-By"))
    as [p|];
    destruct (Requests.ci_get (Requests.headers resp) (py "Server")) as [s|];
    simpl.
  - split; [lia|]. split.
    + intros v [<-|[<-|[]]].
      * destruct (P1 p eq_refl) as [k [Hin Hk]]. exists k. auto.
      * destruct (S1 s eq_refl) as [k [Hin Hk]]. exists k. auto.
    + split; [discriminate|]. intros H. exfalso.
      destruct (P1 p eq_refl) as [k [Hin Hk]]. apply (H k p Hin). auto.
  - split; [lia|]. split.
    + intros v [<-|[]].
      destruct (P1 p eq_refl) as [k [Hin Hk]]. exists k. auto.
    + split; [discriminate|]. intros H. exfalso.
      destruct (P1 p eq_refl) as [k [Hin Hk]]. apply (H k p Hin). auto.
  - split; [lia|]. split.
    + intros v [<-|[]].
      destruct (S1 s eq_refl) as [k [Hin Hk]]. exists k. auto.
    + split; [discriminate|]. intros H. exfalso.
      destruct (S1 s eq_refl) as [k [Hin Hk]]. apply (H k s Hin). auto.
  - split; [lia|]. split; [intros v []|].
    split; [|reflexivity]. intros _ k v Hin [Hk|Hk].
    + apply (proj1 P2 eq_refl k v Hin Hk).
    + apply (proj1 S2 eq_refl k v Hin Hk).
Qed.

Lemma detect_web_technologies_headers_witness :
  exists technologies,
    WebSpider.detect_web_technologies Demo.net (py "http://site/gone")
                                      Demo.world0
    = (Py.Return technologies, Demo.world0) /\
    (List.length technologies <= 2)%nat.
Proof.
  destruct (detect_web_technologies_headers Demo.net (py "http://site/gone")
              Demo.world0
              (Requests.mkResponse 404 [(py "Server", py "nginx")]
                                   (py "Not Found")) eq_refl)
    as [ts [Hrun [Hlen _]]].
  exists ts. split; assumption.
Defined.

(* ===================================================================== *)
(** * More on the date filter *)
(* ===================================================================== *)

Lemma fold_printed (ls : list Py.line) (w : Py.World) :
  Py.stdout (fold_left Py.printed ls w) = Py.stdout w ++ ls /\
  Py.files (fold_left Py.printed ls w) = Py.files w /\
  Py.writable (fold_left Py.printed ls w) = Py.writable w /\
  Py.today (fold_left Py.printed ls w) = Py.today w.
Proof.
  revert w; induction ls as [|l ls IH]; intros w; simpl.
  - rewrite app_nil_r. auto.
  - destruct (IH (Py.printed w l)) as [H1 [H2 [H3 H4]]].
    rewrite H1, H2, H3, H4. simpl. rewrite <- app_assoc. auto.
Qed.




Section MoreDateFilterFacts.
Import Py.
Variable strptime : str -> str -> Result date.
Variables date_key date_format : str.

(** [filter_by_date] with or without a threshold: without one, the
    date of the day is the threshold. *)
Lemma filter_by_date_run (data : list record) (date_threshold : option date)
      (w : World) :
  forallb (Props.caught strptime date_key date_format) data = true ->
  WebSpider.filter_by_date strptime data date_key date_format date_threshold w =
  (Return (filter (Props.on_or_after strptime date_key date_format
                     (match date_threshold with
                      | Some t => t
                      | None => today w
                      end)) data),
   fold_left printed
             (flat_map (Props.skip_lines strptime date_key date_format) data)
             w).
Proof.
  intros Hc. destruct date_threshold as [t|];
    [apply filter_by_date_eq; exact Hc|].
  unfold WebSpider.filter_by_date, bind, date_today.
  apply filter_loop_eq; exact Hc.
Qed.








End MoreDateFilterFacts.









(* ===================================================================== *)
(** * More on the CSV export *)
(* ===================================================================== *)

Section SameBut.
Import Py.
Variable filename : str.

Lemma same_but_refl (w : World) : Descr.same_but filename w w.
Proof. unfold Descr.same_but. auto. Qed.

Lemma same_but_trans (w1 w2 w3 : World) :
  Descr.same_but filename w1 w2 -> Descr.same_but filename w2 w3 ->
  Descr.same_but filename w1 w3.
Proof.
  unfold Descr.same_but. intros [F1 [W1 T1]] [F2 [W2 T2]].
  split; [|split; congruence].
  intros f Hf. rewrite (F2 f Hf). apply F1; exact Hf.
Qed.

Lemma same_but_printed (w : World) (l : line) :
  Descr.same_but filename w (printed w l).
Proof. unfold Descr.same_but. simpl. auto. Qed.

Lemma same_but_opened (w : World) : Descr.same_but filename w (opened w filename).
Proof.
  unfold Descr.same_but. simpl. split; [|auto].
  intros f Hf. apply get_setitem_other. congruence.
Qed.

Lemma same_but_wrote (w : World) (data : str) :
  Descr.same_but filename w (wrote w filename data).
Proof.
  unfold Descr.same_but. simpl. split; [|auto].
  intros f Hf. rewrite get_mutate.
  destruct (Str.eqb filename f) eqn:E; [|reflexivity].
  apply str_eqb_eq in E. congruence.
Qed.

(** Writing rows changes the open file only, and prints nothing. *)
Lemma writerows_same_but (names : list str) (rows : list record) (w : World) :
  Descr.same_but filename w
    (snd (Csv.writerows (Csv.mkDictWriter filename names) rows w)) /\
  stdout (snd (Csv.writerows (Csv.mkDictWriter filename names) rows w))
  = stdout w.
Proof.
  revert w; induction rows as [|r rows IH]; intros w.
  - simpl. split; [apply same_but_refl | reflexivity].
  - cbn [Csv.writerows]. unfold bind. rewrite writerow_eq.
    cbn [Csv.fieldnames Csv.csvfile].
    destruct (Props.row_ok names r).
    + destruct (IH (wrote w filename
                      (Props.row_text (Props.cells names r)))) as [H1 H2].
      split; [|rewrite H2; reflexivity].
      eapply same_but_trans; [apply same_but_wrote | exact H1].
    + simpl. split; [apply same_but_refl | reflexivity].
Qed.

(** [save_to_csv] changes no file but its own, and prints at most its
    one closing (or no-data) line. *)
Lemma save_to_csv_same_but (data : list record) (w : World) :
  Descr.same_but filename w (snd (WebSpider.save_to_csv data filename w)) /\
  (stdout (snd (WebSpider.save_to_csv data filename w)) = stdout w \/
   exists l, stdout (snd (WebSpider.save_to_csv data filename w))
             = stdout w ++ [l]).
Proof.
  destruct data as [|first rest].
  - simpl. split; [apply same_but_printed|]. right. eexists; reflexivity.
  - destruct (writable w filename) eqn:Hw.
    + rewrite (save_to_csv_eq _ _ _ _ Hw).
      destruct (forallb Str.encodable (Dict.keys first)).
      * destruct (writerows_same_but (Dict.keys first) (first :: rest)
                    (wrote (opened w filename) filename
                           (Props.row_text (Dict.keys first)))) as [H1 H2].
        assert (H0 : Descr.same_but filename w
                       (wrote (opened w filename) filename
                              (Props.row_text (Dict.keys first)))).
        { eapply same_but_trans; [apply same_but_opened | apply same_but_wrote]. }
        destruct (Csv.writerows _ _ _) as [[u|e] w'] eqn:E; simpl in *.
        -- split.
           ++ eapply same_but_trans; [exact H0|].
              eapply same_but_trans; [exact H1 | apply same_but_printed].
           ++ right. rewrite H2. eexists; reflexivity.
        -- split; [eapply same_but_trans; eassumption|]. left. exact H2.
      * simpl. split; [apply same_but_opened | left; reflexivity].
    + unfold WebSpider.save_to_csv, bind, open_w. rewrite Hw. simpl.
      split; [apply same_but_refl | left; reflexivity].
Qed.

End SameBut.

(** When [save_to_csv] returns from a non-empty list, the file could
    be opened and the header and every row could be written. *)
Lemma save_to_csv_returns (first : Py.record) (rest : list Py.record)
      (filename : str) (w w' : Py.World) :
  WebSpider.save_to_csv (first :: rest) filename w = (Py.Return tt, w') ->
  Py.writable w filename = true /\
  forallb Str.encodable (Dict.keys first) = true /\
  forallb (Props.row_ok (Dict.keys first)) (first :: rest) = true.
Proof.
  intros Hrun.
  destruct (Py.writable w filename) eqn:Hw;
    [|rewrite (save_to_csv_unopened first rest filename w Hw) in Hrun;
      discriminate Hrun].
  destruct (forallb Str.encodable (Dict.keys first)) eqn:Hkeys;
    [|rewrite (save_to_csv_header_raise first filename w Hw rest Hkeys) in Hrun;
      discriminate Hrun].
  destruct (forallb (Props.row_ok (Dict.keys first)) (first :: rest)) eqn:Hrows;
    [auto|].
  destruct (first_false _ _ Hrows) as [before [bad [after [E [Hb Hbad]]]]].
  destruct (save_to_csv_raise first filename w Hw rest before bad after
              Hkeys E Hb Hbad) as [w'' [Hraise _]].
  rewrite Hraise in Hrun. discriminate Hrun.
Qed.



(** X12: whatever its outcome, [save_to_csv] changes no file other than
    the one it is given, and it prints at most one line. *)
Theorem save_to_csv_touches_only_its_file :
  forall (data : list Py.record) (filename : str) (w : Py.World),
    (forall f, f <> filename ->
       Dict.get (Py.files (snd (WebSpider.save_to_csv data filename w))) f
       = Dict.get (Py.files w) f) /\
    (Py.stdout (snd (WebSpider.save_to_csv data filename w)) = Py.stdout w \/
     exists l, Py.stdout (snd (WebSpider.save_to_csv data filename w))
               = Py.stdout w ++ [l]).
Proof.
  intros data filename w.
  destruct (save_to_csv_same_but filename data w) as [[H _] Hout].
  split; assumption.
Qed.

Lemma save_to_csv_touches_only_its_file_witness :
  Dict.get (Py.files (snd (WebSpider.save_to_csv [Props.ab; Props.only_a]
                             (py "out.csv") Demo.world0)))
           (py "other.csv")
  = Dict.get (Py.files Demo.world0) (py "other.csv").
Proof.
  apply (proj1 (save_to_csv_touches_only_its_file [Props.ab; Props.only_a]
                  (py "out.csv") Demo.world0)).
  vm_compute. discriminate.
Defined.

Lemma same_mapping_row (names : list str) (r r' : Py.record) :
  Descr.same_mapping r r' ->
  Props.conforms names r = Props.conforms names r' /\
  Props.cells names r = Props.cells names r'.
Proof.
  intros H. split.
  - assert (G : forall a b : Py.record,
              Descr.same_mapping a b ->
              Props.conforms names a = true -> Props.conforms names b = true).
    { intros a b Hab Ha. unfold Props.conforms in *.
      rewrite forallb_forall in *. intros k Hk. apply Ha.
      destruct (Dict.get a k) as [v|] eqn:E; [eapply get_Some_keys; eauto|].
      exfalso. rewrite (Hab k) in E. apply get_None_keys in E. auto. }
    destruct (Props.conforms names r) eqn:E1;
      destruct (Props.conforms names r') eqn:E2; try reflexivity.
    + rewrite (G r r' H E1) in E2. discriminate.
    + assert (H' : Descr.same_mapping r' r) by (intros k; symmetry; apply H).
      rewrite (G r' r H' E2) in E1. discriminate.
  - unfold Props.cells. apply map_ext. intros k. rewrite (H k). reflexivity.
Qed.

Lemma writerows_same_mapping (wr : Csv.DictWriter) (rows rows' : list Py.record)
      (w : Py.World) :
  Forall2 Descr.same_mapping rows rows' ->
  forallb (Props.conforms (Csv.fieldnames wr)) rows = true ->
  Csv.writerows wr rows w = Csv.writerows wr rows' w.
Proof.
  intros H. revert w. induction H as [|r r' rows rows' Hr Hrows IH]; intros w Hc;
    [reflexivity|].
  simpl in Hc. apply andb_true_iff in Hc as [Hc1 Hc2].
  cbn [Csv.writerows]. unfold Py.bind. rewrite !writerow_eq.
  unfold Props.row_ok, Props.row_error, Props.encodable_cells.
  destruct (same_mapping_row (Csv.fieldnames wr) r r' Hr) as [<- <-].
  rewrite Hc1. cbn [andb].
  destruct (forallb Str.encodable (Props.cells (Csv.fieldnames wr) r));
    [apply IH; exact Hc2 | reflexivity].
Qed.

(** X13: the columns are fixed by the first record alone: when the
    file can be opened and no later record has a key outside the first
    record's keys, replacing the later records by records that hold the
    same values under the same names, in whatever key order, gives the
    same result and the same file. *)
Theorem save_to_csv_key_order_irrelevant :
  forall (first : Py.record) (rest rest' : list Py.record) (filename : str)
         (w : Py.World),
    Py.writable w filename = true ->
    forallb (Props.conforms (Dict.keys first)) rest = true ->
    Forall2 Descr.same_mapping rest rest' ->
    WebSpider.save_to_csv (first :: rest) filename w
    = WebSpider.save_to_csv (first :: rest') filename w.
Proof.
  intros first rest rest' filename w Hw Hc Hsame.
  rewrite !(save_to_csv_eq _ _ _ _ Hw).
  rewrite (writerows_same_mapping _ (first :: rest) (first :: rest')).
  - reflexivity.
  - constructor; [intros k; reflexivity | exact Hsame].
  - cbn [Csv.fieldnames forallb]. rewrite conforms_self, Hc. reflexivity.
Qed.

Lemma save_to_csv_key_order_irrelevant_witness :
  WebSpider.save_to_csv
    [Props.ab; [(py "a", Some (py "5")); (py "b", Some (py "6"))]]
    (py "out.csv") Demo.world0
  = WebSpider.save_to_csv
      [Props.ab; [(py "b", Some (py "6")); (py "a", Some (py "5"))]]
      (py "out.csv") Demo.world0.
Proof.
  apply (save_to_csv_key_order_irrelevant Props.ab
           [[(py "a", Some (py "5")); (py "b", Some (py "6"))]]
           [[(py "b", Some (py "6")); (py "a", Some (py "5"))]]
           (py "out.csv") Demo.world0).
  - reflexivity.
  - reflexivity.
  - constructor; [|constructor]. intros k. cbn [Dict.get].
    destruct (Str.eqb (py "a") k) eqn:Ea;
      destruct (Str.eqb (py "b") k) eqn:Eb; try reflexivity.
    apply str_eqb_eq in Ea, Eb. rewrite <- Ea in Eb. discriminate Eb.
Defined.

(** X14: the export overwrites: after a [save_to_csv] that returned,
    saving the same records to the same file again returns too and
    leaves the file with the same text (nothing is appended to what
    was there). *)
Theorem save_to_csv_twice :
  forall (first : Py.record) (rest : list Py.record) (filename : str)
         (w w1 : Py.World),
    WebSpider.save_to_csv (first :: rest) filename w = (Py.Return tt, w1) ->
    exists w2,
      WebSpider.save_to_csv (first :: rest) filename w1 = (Py.Return tt, w2) /\
      Dict.get (Py.files w2) filename = Dict.get (Py.files w1) filename /\
      (exists text, Dict.get (Py.files w1) filename = Some text).
Proof.
  intros first rest filename w w1 Hrun.
  destruct (save_to_csv_returns _ _ _ _ _ Hrun) as [Hw [Hkeys Hrows]].
  destruct (save_to_csv_ok first filename w Hw rest Hkeys Hrows)
    as [w1' [Hrun1 [Hf1 _]]].
  rewrite Hrun in Hrun1. injection Hrun1 as <-.
  assert (Hw1 : Py.writable w1 filename = true).
  { destruct (save_to_csv_same_but filename (first :: rest) w) as [[_ [Hwr _]] _].
    rewrite Hrun in Hwr. simpl in Hwr. rewrite Hwr. exact Hw. }
  destruct (save_to_csv_ok first filename w1 Hw1 rest Hkeys Hrows)
    as [w2 [Hrun2 [Hf2 _]]].
  exists w2. split; [exact Hrun2|].
  split; [rewrite Hf1, Hf2; reflexivity|]. eexists; exact Hf1.
Qed.

Lemma save_to_csv_twice_witness :
  exists w2,
    WebSpider.save_to_csv [Props.ab; Props.only_a] (py "out.csv")
      (snd (WebSpider.save_to_csv [Props.ab; Props.only_a] (py "out.csv")
              Demo.world0))
    = (Py.Return tt, w2) /\
    Dict.get (Py.files w2) (py "out.csv") =
      Some (py "a,b" ++ [13; 10] ++ py "1,2" ++ [13; 10] ++ py "3," ++ [13; 10]).
Proof.
  destruct (save_to_csv_twice Props.ab [Props.only_a] (py "out.csv")
              Demo.world0
              (snd (WebSpider.save_to_csv [Props.ab; Props.only_a]
                      (py "out.csv") Demo.world0)) eq_refl)
    as [w2 [H2 [H3 _]]].
  exists w2. split; [exact H2|]. rewrite H3. reflexivity.
Defined.

(* ===================================================================== *)
(** * More on [scrape_website] and the analyzers *)
(* ===================================================================== *)

Section MoreAnalyzerFacts.
Import Py.
Context `{backend : Bs4.Backend}.






End MoreAnalyzerFacts.




(** X17: none of the four fetch-based operations touches a file, and
    each prints at most one line: the world after the call is the world
    before it, or that world with one more line on standard output. *)
Theorem analyzers_leave_the_files :
  forall (backend : Bs4.Backend) (net : Requests.Network) (url : str)
         (target_elements : dict str) (w : Py.World),
    let unchanged_or_one_line (w' : Py.World) :=
      w' = w \/ exists l, w' = Py.printed w l in
    unchanged_or_one_line
      (snd (WebSpider.scrape_website net url target_elements w)) /\
    unchanged_or_one_line (snd (WebSpider.extract_keywords net url w)) /\
    unchanged_or_one_line (snd (WebSpider.check_robots_txt net url w)) /\
    unchanged_or_one_line (snd (WebSpider.detect_web_technologies net url w)) /\
    Py.files (snd (WebSpider.scrape_website net url target_elements w))
    = Py.files w /\
    Py.files (snd (WebSpider.extract_keywords net url w)) = Py.files w /\
    Py.files (snd (WebSpider.check_robots_txt net url w)) = Py.files w /\
    Py.files (snd (WebSpider.detect_web_technologies net url w)) = Py.files w.
Proof.
  intros backend net url target_elements w. cbv zeta.
  assert (S : snd (WebSpider.scrape_website net url target_elements w) = w \/
              exists l, snd (WebSpider.scrape_website net url target_elements w)
                        = Py.printed w l).
  { rewrite scrape_website_eq.
    destruct (net url) as [r|reason]; [|right; eexists; reflexivity].
    destruct (Requests.is_http_error _); [right; eexists; reflexivity|].
    destruct (Bs4.BeautifulSoup (Requests.text r)) as [soup|];
      [|right; eexists; reflexivity].
    destruct (scrape_loop_cases soup target_elements [] w)
      as [[x ->]|[s ->]];
      [left; reflexivity | right; eexists; reflexivity]. }
  assert (K : snd (WebSpider.extract_keywords net url w) = w \/
              exists l, snd (WebSpider.extract_keywords net url w)
                        = Py.printed w l).
  { rewrite extract_keywords_eq.
    destruct (net url) as [r|reason]; [|right; eexists; reflexivity].
    destruct (Requests.is_http_error _); [right; eexists; reflexivity|].
    destruct (Bs4.BeautifulSoup (Requests.text r)); left; reflexivity. }
  assert (R : snd (WebSpider.check_robots_txt net url w) = w \/
              exists l, snd (WebSpider.check_robots_txt net url w)
                        = Py.printed w l).
  { rewrite check_robots_txt_eq.
    destruct (net _) as [r|reason]; [|right; eexists; reflexivity].
    destruct (Requests.status_code r =? 200)%Z;
      [left; reflexivity | right; eexists; reflexivity]. }
  assert (T : snd (WebSpider.detect_web_technologies net url w) = w \/
              exists l, snd (WebSpider.detect_web_technologies net url w)
                        = Py.printed w l).
  { rewrite detect_web_technologies_eq.
    destruct (net url) as [r|reason];
      [left; reflexivity | right; eexists; reflexivity]. }
  repeat split; try assumption.
  - destruct S as [->|[l ->]]; reflexivity.
  - destruct K as [->|[l ->]]; reflexivity.
  - destruct R as [->|[l ->]]; reflexivity.
  - destruct T as [->|[l ->]]; reflexivity.
Qed.

(* ===================================================================== *)
(** * The driver *)
(* ===================================================================== *)

Section DriverFacts.
Import Py.
Context `{backend : Bs4.Backend}.
Variable net : Requests.Network.
Variable strptime : str -> str -> Result date.

Lemma emit_emit (s : Main.State) (a b : list Main.out_line) :
  Main.emit (Main.emit s a) b = Main.emit s (a ++ b).
Proof. unfold Main.emit. simpl. rewrite app_assoc. reflexivity. Qed.

(** A call that only prints: its lines are added to the output. *)
Lemma call_printed {A : Type} (m : M A) (s : Main.State) (r : Result A)
      (ls : list line) :
  m (Main.world_of s) = (r, fold_left printed ls (Main.world_of s)) ->
  Main.call m s = (r, Main.emit s (map Main.Lib ls)).
Proof.
  intros H. unfold Main.call. rewrite H.
  destruct (fold_printed ls (Main.world_of s)) as [H1 [H2 [H3 H4]]].
  rewrite H1, H2, H3, H4. reflexivity.
Qed.

(** The extraction loop does not look at the world. *)
Lemma scrape_loop_pure (soup : Bs4.Document) (items : list (str * str))
      (extracted_data : record) :
  exists res, forall w,
    WebSpider.scrape_loop soup items extracted_data w = (res, w).
Proof.
  revert extracted_data.
  induction items as [|[key selector] rest IH]; intros acc.
  - eexists; intros w; reflexivity.
  - cbn [WebSpider.scrape_loop]. unfold bind, Bs4.select_one_M.
    destruct (Bs4.select_one soup selector) as [el| |].
    + destruct (IH (Dict.setitem acc key
                      (Some (Str.strip (Bs4.tag_text el))))) as [res Hres].
      exists res. intros w. apply Hres.
    + destruct (IH (Dict.setitem acc key None)) as [res Hres].
      exists res. intros w. apply Hres.
    + eexists; intros w; reflexivity.
Qed.

(** Each analyzer returns a value and prints lines that depend on the
    network only. *)
Lemma scrape_website_printed (url : str) (target_elements : dict str) :
  exists extracted ls, forall w,
    WebSpider.scrape_website net url target_elements w
    = (Return extracted, fold_left printed ls w).
Proof.
  destruct (net url) as [r|reason] eqn:Hnet.
  - destruct (Requests.is_http_error (Requests.status_code r)) eqn:Hs.
    + exists [], [Error_fetching_the_URL (HTTPError (Requests.status_code r))].
      intros w. rewrite scrape_website_eq, Hnet, Hs. reflexivity.
    + destruct (Bs4.BeautifulSoup (Requests.text r)) as [soup|] eqn:Hsoup.
      * destruct (scrape_loop_pure soup target_elements []) as [[x|e] Hres].
        -- exists x, []. intros w.
           rewrite scrape_website_eq, Hnet, Hs, Hsoup, Hres. reflexivity.
        -- exists [], [if isinstance_RequestException e
                       then Error_fetching_the_URL e else An_error_occurred e].
           intros w.
           rewrite scrape_website_eq, Hnet, Hs, Hsoup, Hres. reflexivity.
      * exists [], [An_error_occurred ParserRejectedMarkup].
        intros w. rewrite scrape_website_eq, Hnet, Hs, Hsoup. reflexivity.
  - exists [], [Error_fetching_the_URL (RequestException reason)].
    intros w. rewrite scrape_website_eq, Hnet. reflexivity.
Qed.

(** On a page the parser rejects [scrape_website] returns the empty
    record and [extract_keywords] raises. *)
Lemma rejected_page (url : str) (target_elements : dict str) (w : World) :
  Props.page_rejected net url = true ->
  WebSpider.scrape_website net url target_elements w
  = (Return [], printed w (An_error_occurred ParserRejectedMarkup)) /\
  WebSpider.extract_keywords net url w = (Raise ParserRejectedMarkup, w).
Proof.
  unfold Props.page_rejected.
  rewrite scrape_website_eq, extract_keywords_eq.
  destruct (net url) as [r|reason]; [|discriminate].
  destruct (Requests.is_http_error (Requests.status_code r)); [discriminate|].
  destruct (Bs4.BeautifulSoup (Requests.text r)); [discriminate|].
  intros _. split; reflexivity.
Qed.

Lemma extract_keywords_printed (url : str) :
  Props.page_rejected net url = false ->
  exists keywords ls, forall w,
    WebSpider.extract_keywords net url w
    = (Return keywords, fold_left printed ls w).
Proof.
  unfold Props.page_rejected.
  destruct (net url) as [r|reason] eqn:Hnet.
  - destruct (Requests.is_http_error (Requests.status_code r)) eqn:Hs.
    + intros _. eexists; exists [Error_fetching_the_URL_for_keywords
                                   (HTTPError (Requests.status_code r))].
      intros w. rewrite extract_keywords_eq, Hnet, Hs. reflexivity.
    + destruct (Bs4.BeautifulSoup (Requests.text r)) as [soup|] eqn:Hsoup;
        [|discriminate].
      intros _. eexists; exists []. intros w.
      rewrite extract_keywords_eq, Hnet, Hs, Hsoup. reflexivity.
  - intros _. eexists; exists [Error_fetching_the_URL_for_keywords
                                 (RequestException reason)].
    intros w. rewrite extract_keywords_eq, Hnet. reflexivity.
Qed.

Lemma check_robots_txt_printed (url : str) :
  exists rules ls, forall w,
    WebSpider.check_robots_txt net url w = (Return rules, fold_left printed ls w).
Proof.
  destruct (net (WebSpider.robots_url url)) as [r|reason] eqn:Hnet.
  - destruct (Requests.status_code r =? 200)%Z eqn:Hs.
    + eexists; exists []. intros w.
      rewrite check_robots_txt_eq, Hnet, Hs. reflexivity.
    + eexists; exists [robots_txt_not_found_at (WebSpider.robots_url url)].
      intros w. rewrite check_robots_txt_eq, Hnet, Hs. reflexivity.
  - eexists; exists [Error_fetching_robots_txt (RequestException reason)].
    intros w. rewrite check_robots_txt_eq, Hnet. reflexivity.
Qed.

Lemma detect_web_technologies_printed (url : str) :
  exists technologies ls, forall w,
    WebSpider.detect_web_technologies net url w
    = (Return technologies, fold_left printed ls w).
Proof.
  destruct (net url) as [r|reason] eqn:Hnet.
  - eexists; exists []. intros w.
    rewrite detect_web_technologies_eq, Hnet. reflexivity.
  - eexists; exists [Error_detecting_technologies (RequestException reason)].
    intros w. rewrite detect_web_technologies_eq, Hnet. reflexivity.
Qed.

(** The three reporting blocks at the end of the driver change no file;
    they run to the end, unless the parser rejects the page: then they
    stop at the keywords. *)
Lemma main_reports :
  exists tail, forall s,
    Main.dbind (Main.say Main.Extracting_keywords) (fun _ =>
    Main.dbind (Main.call (WebSpider.extract_keywords net Main.website_url))
               (fun keywords =>
    Main.dbind (Main.say (Main.Keywords keywords)) (fun _ =>
    Main.dbind (Main.say Main.Checking_robots_txt) (fun _ =>
    Main.dbind (Main.call (WebSpider.check_robots_txt net Main.website_url))
               (fun robots_rules =>
    Main.dbind (Main.say (Main.Robots_txt_Rules robots_rules)) (fun _ =>
    Main.dbind (Main.say Main.Detecting_web_technologies) (fun _ =>
    Main.dbind (Main.call (WebSpider.detect_web_technologies net Main.website_url))
               (fun technologies =>
    Main.say (Main.Detected_Technologies technologies))))))))) s
    = if Props.page_rejected net Main.website_url
      then (Raise ParserRejectedMarkup,
            Main.emit s [Main.Extracting_keywords])
      else (Return tt, Main.emit s (Main.Extracting_keywords :: tail)).
Proof.
  destruct (Props.page_rejected net Main.website_url) eqn:Hrej.
  - exists []. intros s. unfold Main.dbind at 1. unfold Main.say at 1.
    unfold Main.dbind at 1.
    assert (Hk : WebSpider.extract_keywords net Main.website_url
                   (Main.world_of (Main.emit s [Main.Extracting_keywords]))
                 = (Raise ParserRejectedMarkup,
                    fold_left printed []
                      (Main.world_of (Main.emit s [Main.Extracting_keywords]))))
      by (apply (rejected_page Main.website_url [] _ Hrej)).
    rewrite (call_printed _ _ _ _ Hk). simpl map.
    rewrite emit_emit, app_nil_r. reflexivity.
  - destruct (extract_keywords_printed Main.website_url Hrej) as [ks [lk Hk]].
    destruct (check_robots_txt_printed Main.website_url) as [rules [lr Hr]].
    destruct (detect_web_technologies_printed Main.website_url) as [ts [lt Ht]].
    exists (map Main.Lib lk
            ++ [Main.Keywords ks; Main.Checking_robots_txt]
            ++ map Main.Lib lr
            ++ [Main.Robots_txt_Rules rules; Main.Detecting_web_technologies]
            ++ map Main.Lib lt ++ [Main.Detected_Technologies ts]).
    intros s. unfold Main.dbind, Main.say.
    rewrite (call_printed _ _ _ _ (Hk _)).
    rewrite (call_printed _ _ _ _ (Hr _)).
    rewrite (call_printed _ _ _ _ (Ht _)).
    rewrite !emit_emit. reflexivity.
Qed.

End DriverFacts.

(** One record whose keys or texts cannot be encoded: [save_to_csv]
    raises [UnicodeEncodeError] and prints nothing. *)
Lemma save_to_csv_one_unencodable (first : Py.record) (filename : str)
      (w : Py.World) :
  Py.writable w filename = true ->
  forallb Str.encodable (Dict.keys first)
  && Props.encodable_cells (Dict.keys first) first = false ->
  exists text w',
    WebSpider.save_to_csv [first] filename w
    = (Py.Raise (Py.UnicodeEncodeError text), w') /\
    Py.stdout w' = Py.stdout w.
Proof.
  intros Hw H.
  destruct (forallb Str.encodable (Dict.keys first)) eqn:Hkeys.
  - simpl in H.
    destruct (save_to_csv_raise first filename w Hw [] [] first []
                Hkeys eq_refl eq_refl) as [w' [Hrun [_ Hout]]].
    + unfold Props.row_ok. rewrite conforms_self, H. reflexivity.
    + unfold Props.row_error in Hrun. rewrite conforms_self in Hrun. eauto.
  - rewrite (save_to_csv_header_raise first filename w Hw [] Hkeys).
    eexists; eexists; split; reflexivity.
Qed.

Section DriverRun.
Import Py.
Context `{backend : Bs4.Backend}.
Variable net : Requests.Network.
Variable strptime : str -> str -> Result date.

(** The driver, path by path. *)
Lemma main_run (s : Main.State) :
  exists scraped ls1 tail,
    (forall w, WebSpider.scrape_website net Main.website_url
                 Main.elements_to_scrape w
               = (Return scraped, fold_left printed ls1 w)) /\
    let head :=
      Main.Scraping_website Main.website_url
      :: map Main.Lib ls1
      ++ map Main.Lib (Props.skip_lines strptime (py "date") (py "%Y-%m-%d")
                                        scraped) in
    if Props.caught strptime (py "date") (py "%Y-%m-%d") scraped
    then
      if Props.on_or_after strptime (py "date") (py "%Y-%m-%d")
                           (Main.clock s) scraped
      then
        if Main.can_open s Main.csv_name
        then
          if forallb Str.encodable (Dict.keys scraped)
             && Props.encodable_cells (Dict.keys scraped) scraped
          then
            exists s',
              Main.main net strptime s = (Return tt, s') /\
              Main.out s' =
                Main.out s ++ head
                ++ [Main.Filtered_Data; Main.Item scraped;
                    Main.Lib (Data_saved_to Main.csv_name)]
                ++ Main.Extracting_keywords :: tail /\
              Dict.get (Main.fs s') Main.csv_name =
                Some (Props.row_text (Dict.keys scraped)
                      ++ Props.row_text
                           (Props.cells (Dict.keys scraped) scraped)) /\
              (forall f, f <> Main.csv_name ->
                         Dict.get (Main.fs s') f = Dict.get (Main.fs s) f)
          else
            exists text s',
              Main.main net strptime s
              = (Raise (UnicodeEncodeError text), s') /\
              (forall f, f <> Main.csv_name ->
                         Dict.get (Main.fs s') f = Dict.get (Main.fs s) f)
        else
          Main.main net strptime s =
          (Raise (OSError Main.csv_name),
           Main.emit s (head ++ [Main.Filtered_Data; Main.Item scraped]))
      else
        if Props.page_rejected net Main.website_url
        then
          Main.main net strptime s =
          (Raise ParserRejectedMarkup,
           Main.emit s (head ++ [Main.No_data_matching_the_date_criteria;
                                 Main.Extracting_keywords]))
        else
          Main.main net strptime s =
          (Return tt,
           Main.emit s (head ++ Main.No_data_matching_the_date_criteria
                             :: Main.Extracting_keywords :: tail))
    else
      exists text e,
        strptime text (py "%Y-%m-%d") = Raise e /\
        isinstance_ValueError_or_KeyError e = false /\
        Main.main net strptime s =
        (Raise e,
         Main.emit s (Main.Scraping_website Main.website_url
                      :: map Main.Lib ls1)).
Proof.
  destruct (scrape_website_printed net Main.website_url Main.elements_to_scrape)
    as [scraped [ls1 Hs]].
  destruct (main_reports net) as [tail Ht].
  exists scraped, ls1, tail. split; [exact Hs|]. cbv zeta.
  remember (Main.main net strptime s) as run eqn:Hrun.
  unfold Main.main in Hrun.
  unfold Main.dbind at 1 in Hrun. unfold Main.say at 1 in Hrun.
  cbv beta iota in Hrun.
  unfold Main.dbind at 1 in Hrun.
  rewrite (call_printed _ _ _ _ (Hs _)) in Hrun. cbv beta iota in Hrun.
  unfold Main.dbind at 1 in Hrun.
  destruct (Props.caught strptime (py "date") (py "%Y-%m-%d") scraped) eqn:Hc.
  - assert (Hc1 : forallb (Props.caught strptime (py "date") (py "%Y-%m-%d"))
                          [scraped] = true)
      by (simpl; rewrite Hc; reflexivity).
    rewrite (call_printed _ _ _ _
               (filter_by_date_run strptime (py "date") (py "%Y-%m-%d")
                                   [scraped] None _ Hc1)) in Hrun.
    cbv beta iota in Hrun.
    change (today (Main.world_of _)) with (Main.clock s) in Hrun.
    cbn [filter flat_map] in Hrun. rewrite app_nil_r, !emit_emit in Hrun.
    destruct (Props.on_or_after strptime (py "date") (py "%Y-%m-%d")
                                (Main.clock s) scraped) eqn:Hpass.
    + unfold Main.dbind at 1 in Hrun. unfold Main.dbind at 1 in Hrun.
      unfold Main.say at 1 in Hrun. cbv beta iota in Hrun.
      unfold Main.dbind at 1 in Hrun. cbn [Main.say_items] in Hrun.
      unfold Main.dbind at 1 in Hrun. unfold Main.say at 1 in Hrun.
      cbv beta iota in Hrun. unfold Main.dret in Hrun. cbv beta iota in Hrun.
      rewrite !emit_emit in Hrun.
      set (s5 := Main.emit s _) in Hrun.
      destruct (save_to_csv_same_but Main.csv_name [scraped] (Main.world_of s5))
        as [[Hoth [Hwr Htd]] _].
      destruct (Main.can_open s Main.csv_name) eqn:Hopen.
      * destruct (forallb Str.encodable (Dict.keys scraped)
                  && Props.encodable_cells (Dict.keys scraped) scraped)
          eqn:Hexp.
        -- apply andb_true_iff in Hexp as [Hkeys Hcells].
           assert (Hrej : Props.page_rejected net Main.website_url = false).
           { destruct (Props.page_rejected net Main.website_url) eqn:Hrej;
               [|reflexivity].
             pose proof (Hs (Main.world_of s)) as Hw.
             rewrite (proj1 (rejected_page net Main.website_url
                               Main.elements_to_scrape _ Hrej)) in Hw.
             injection Hw as <- _. discriminate Hpass. }
           rewrite Hrej in Ht.
           destruct (save_to_csv_ok scraped Main.csv_name (Main.world_of s5)
                       Hopen [] Hkeys) as [w' [Hsave [Hfile Hout]]].
           { cbn [forallb]. unfold Props.row_ok.
             rewrite conforms_self, Hcells. reflexivity. }
           rewrite Hsave in Hoth, Hwr, Htd. simpl snd in Hoth, Hwr, Htd.
           unfold Main.call in Hrun. rewrite Hsave, Ht in Hrun.
           eexists. split; [exact Hrun|]. split; [|split].
           ++ cbn [Main.out Main.emit]. rewrite Hout. subst s5.
              cbn [Main.out Main.emit Main.world_of stdout map app].
              repeat (simpl; rewrite <- app_assoc). reflexivity.
           ++ cbn [Main.fs Main.emit]. rewrite Hfile. simpl.
              rewrite app_nil_r. reflexivity.
           ++ intros f Hf. cbn [Main.fs Main.emit]. rewrite (Hoth f Hf).
              reflexivity.
        -- destruct (save_to_csv_one_unencodable scraped Main.csv_name
                       (Main.world_of s5) Hopen Hexp)
             as [text [w' [Hsave _]]].
           rewrite Hsave in Hoth. simpl snd in Hoth.
           unfold Main.call in Hrun. rewrite Hsave in Hrun.
           exists text. eexists. split; [exact Hrun|].
           intros f Hf. cbn [Main.fs]. rewrite (Hoth f Hf). reflexivity.
      * unfold Main.call in Hrun.
        rewrite (save_to_csv_unopened scraped [] Main.csv_name
                   (Main.world_of s5) Hopen) in Hrun.
        rewrite Hrun. subst s5. unfold Main.emit, Main.world_of. simpl.
        rewrite ?app_nil_r.
        repeat (simpl; rewrite <- app_assoc). reflexivity.
    + unfold Main.dbind at 1 in Hrun. unfold Main.say at 1 in Hrun.
      cbv beta iota in Hrun. rewrite Ht in Hrun.
      destruct (Props.page_rejected net Main.website_url);
        rewrite !emit_emit in Hrun; rewrite Hrun; unfold Main.emit;
        repeat (simpl; rewrite <- app_assoc); reflexivity.
  - destruct (uncaught_inv strptime (py "date") (py "%Y-%m-%d") scraped Hc)
      as [c [text [e [Hget [Hparse He]]]]].
    exists (c :: text), e. split; [exact Hparse|]. split; [exact He|].
    assert (Hf : WebSpider.filter_by_date strptime [scraped] (py "date")
                   (py "%Y-%m-%d") None
                   (Main.world_of
                      (Main.emit
                         (Main.emit s [Main.Scraping_website Main.website_url])
                         (map Main.Lib ls1)))
                 = (Raise e,
                    fold_left printed []
                      (Main.world_of
                         (Main.emit
                            (Main.emit s
                               [Main.Scraping_website Main.website_url])
                            (map Main.Lib ls1))))).
    { unfold WebSpider.filter_by_date, bind, date_today.
      apply (filter_loop_uncaught strptime (py "date") (py "%Y-%m-%d") _
               scraped [] [] _ c text e); assumption. }
    rewrite (call_printed _ _ _ _ Hf) in Hrun.
    rewrite Hrun, !emit_emit. simpl. rewrite app_nil_r. reflexivity.
Qed.
End DriverRun.




(** X19: when the page cannot be had (transport failure, or a 4xx or
    5xx status), the driver still runs to its end and changes no file:
    it prints the fetch error, the missing-date warning for the empty
    record, [No data matching the date criteria], and goes on to the
    keyword, robots and technology reports. *)
Theorem main_without_page :
  forall (backend : Bs4.Backend) (net : Requests.Network)
         (strptime : str -> str -> Py.Result Py.date) (s : Main.State),
    ((exists reason, net Main.website_url = Requests.Failed reason) \/
     (exists resp, net Main.website_url = Requests.Fetched resp /\
                   Requests.is_http_error (Requests.status_code resp) = true)) ->
    exists s' e tail,
      Main.main net strptime s = (Py.Return tt, s') /\
      Main.fs s' = Main.fs s /\
      Main.out s' =
        Main.out s
        ++ [Main.Scraping_website Main.website_url;
            Main.Lib (Py.Error_fetching_the_URL e);
            Main.Lib (Py.Warning_Missing_date_for_item []);
            Main.No_data_matching_the_date_criteria;
            Main.Extracting_keywords]
        ++ tail.
Proof.
  intros backend net strptime s Hdown.
  destruct (main_run net strptime s) as [scraped [ls1 [tail [Hs H]]]].
  assert (E : exists e, scraped = [] /\ ls1 = [Py.Error_fetching_the_URL e]).
  { pose proof (Hs (Main.world_of s)) as Hw.
    rewrite scrape_website_eq in Hw.
    destruct Hdown as [[reason Hnet]|[resp [Hnet Hstatus]]];
      rewrite Hnet in Hw; [|rewrite Hstatus in Hw];
      injection Hw as <- Hw; eexists; (split; [reflexivity|]);
      apply (f_equal Py.stdout) in Hw;
      destruct (fold_printed ls1 (Main.world_of s)) as [Hout _];
      rewrite Hout in Hw; simpl in Hw; symmetry; exact Hw. }
  assert (Hrej : Props.page_rejected net Main.website_url = false).
  { unfold Props.page_rejected.
    destruct Hdown as [[reason ->]|[resp [-> ->]]]; reflexivity. }
  destruct E as [e [-> ->]]. cbv zeta in H.
  change (Props.caught strptime (py "date") (py "%Y-%m-%d") [])
    with true in H.
  change (Props.on_or_after strptime (py "date") (py "%Y-%m-%d")
                            (Main.clock s) []) with false in H.
  rewrite Hrej in H. cbv iota in H.
  eexists; exists e, tail. split; [exact H|]. split; reflexivity.
Qed.

Lemma main_without_page_witness :
  exists s' e tail,
    Main.main (backend := Demo.backend) Demo.net Demo.strptime
              (Main.start Demo.world0) = (Py.Return tt, s') /\
    Main.fs s' = Main.fs (Main.start Demo.world0) /\
    Main.out s' =
      Main.out (Main.start Demo.world0)
      ++ [Main.Scraping_website Main.website_url;
          Main.Lib (Py.Error_fetching_the_URL e);
          Main.Lib (Py.Warning_Missing_date_for_item []);
          Main.No_data_matching_the_date_criteria;
          Main.Extracting_keywords]
      ++ tail.
Proof.
  apply (main_without_page Demo.backend Demo.net Demo.strptime
           (Main.start Demo.world0)).
  left. eexists. reflexivity.
Defined.

(** X20: end to end: when the page is fetched (no 4xx or 5xx status)
    and parsed, the backend accepts the three selectors of the driver,
    the first element matching the date selector has a non-empty
    trimmed text that parses under [%Y-%m-%d] to a date on or after the
    date of the day in the calendar, the three extracted texts can be
    encoded to UTF-8 and [scraped_data.csv] can be opened, the driver
    runs to its end, prints [Data saved to scraped_data.csv], and
    leaves in that file the header [title,date,description] and one row
    with the three extracted texts (empty where nothing matched). *)
Theorem main_writes_row :
  forall (backend : Bs4.Backend) (net : Requests.Network)
         (strptime : str -> str -> Py.Result Py.date) (s : Main.State)
         (resp : Requests.Response) (soup : Bs4.Document)
         (date_text : str) (d : Py.date),
    let date_selector :=
      py "meta[property='article:published_time'], meta[name='date'], time[datetime]" in
    let description_selector := py "meta[name='description']" in
    net Main.website_url = Requests.Fetched resp ->
    Requests.is_http_error (Requests.status_code resp) = false ->
    Bs4.BeautifulSoup (Requests.text resp) = Some soup ->
    Bs4.select_one soup (py "title") <> Bs4.Rejected ->
    Bs4.select_one soup date_selector <> Bs4.Rejected ->
    Bs4.select_one soup description_selector <> Bs4.Rejected ->
    Props.field_value soup date_selector = Some date_text ->
    date_text <> [] ->
    strptime date_text (py "%Y-%m-%d") = Py.Return d ->
    Props.date_le (Main.clock s) d ->
    Str.encodable (Csv.cell (Props.field_value soup (py "title"))) = true ->
    Str.encodable date_text = true ->
    Str.encodable (Csv.cell (Props.field_value soup description_selector))
    = true ->
    Main.can_open s Main.csv_name = true ->
    exists s',
      Main.main net strptime s = (Py.Return tt, s') /\
      Dict.get (Main.fs s') Main.csv_name =
        Some (py "title,date,description" ++ [13; 10]
              ++ Props.row_text
                   [Csv.cell (Props.field_value soup (py "title"));
                    date_text;
                    Csv.cell (Props.field_value soup description_selector)]) /\
      In (Main.Lib (Py.Data_saved_to Main.csv_name)) (Main.out s').
Proof.
  intros backend net strptime s resp soup date_text d date_selector
         description_selector Hnet Hstatus Hsoup Ht Hd Hdesc Hdate Hne Hparse
         Hle Het Hed Hedesc Hopen.
  destruct (main_run net strptime s) as [scraped [ls1 [tail [Hs H]]]].
  assert (E : scraped =
              [(py "title", Props.field_value soup (py "title"));
               (py "date", Some date_text);
               (py "description",
                Props.field_value soup description_selector)]).
  { pose proof (Hs (Main.world_of s)) as Hw.
    rewrite scrape_website_eq, Hnet, Hstatus, Hsoup in Hw.
    rewrite scrape_loop_eq in Hw.
    - injection Hw as <- _. unfold Main.elements_to_scrape.
      cbn [fold_left fst snd]. fold date_selector.
      fold description_selector. rewrite Hdate. reflexivity.
    - unfold Main.elements_to_scrape.
      intros key selector [[= <- <-]|[[= <- <-]|[[= <- <-]|[]]]]; assumption. }
  cbv zeta in H.
  assert (Hc : Props.caught strptime (py "date") (py "%Y-%m-%d") scraped
               = true).
  { rewrite E. unfold Props.caught.
    change (Dict.get _ (py "date")) with (Some (Some date_text)).
    destruct date_text as [|c r]; [congruence|]. rewrite Hparse. reflexivity. }
  assert (Hpass : Props.on_or_after strptime (py "date") (py "%Y-%m-%d")
                                    (Main.clock s) scraped = true).
  { rewrite E. unfold Props.on_or_after, Props.record_date.
    change (Dict.get _ (py "date")) with (Some (Some date_text)).
    destruct date_text as [|c r]; [congruence|]. rewrite Hparse.
    apply date_leb_le; exact Hle. }
  assert (Hexp : forallb Str.encodable (Dict.keys scraped)
                 && Props.encodable_cells (Dict.keys scraped) scraped = true).
  { rewrite E.
    change (Str.encodable (Csv.cell (Props.field_value soup (py "title")))
            && (Str.encodable date_text
                && (Str.encodable
                      (Csv.cell (Props.field_value soup description_selector))
                    && true)) = true).
    rewrite Het, Hed, Hedesc. reflexivity. }
  rewrite Hc, Hpass, Hopen, Hexp in H.
  destruct H as [s' [Hrun [Hout [Hfile _]]]].
  exists s'. split; [exact Hrun|]. split.
  - rewrite Hfile, E. reflexivity.
  - rewrite Hout. rewrite !in_app_iff. right. right. left.
    right. right. left. reflexivity.
Qed.

Lemma main_writes_row_witness :
  exists s',
    Main.main (backend := DemoDated.dated_backend)
              (Props.serving (py " 2030-01-01 ")) Demo.strptime
              (Main.start Demo.world0) = (Py.Return tt, s') /\
    Dict.get (Main.fs s') Main.csv_name =
      Some (py "title,date,description" ++ [13; 10]
            ++ py "2030-01-01,2030-01-01,2030-01-01" ++ [13; 10]).
Proof.
  destruct (main_writes_row DemoDated.dated_backend
              (Props.serving (py " 2030-01-01 ")) Demo.strptime
              (Main.start Demo.world0)
              (Requests.mkResponse 200 [] (py " 2030-01-01 "))
              (py " 2030-01-01 ")
              (py "2030-01-01") (Py.mkdate 2030 1 1))
    as [s' [Hrun [Hfile _]]];
    try reflexivity; try discriminate;
    try (unfold Props.date_le; simpl; lia).
  exists s'. split; [exact Hrun|]. rewrite Hfile. reflexivity.
Defined.

